(** * bukind/wasm: a shallow embedding of the Go DOM helper

    The package is a thin layer over Go's [syscall/js].  The definitions
    come first:

    - [js]: the part of [syscall/js] the package relies on (value kinds,
      [Get], [Call], [String], [Int], [Truthy], [FuncOf]), over an explicit
      host heap, with Go panics as an outcome of their own;
    - [wasm]: the functions of [src/wasm.go];
    - [part_000]: the class-list and debug functions of the second source
      file, which differ from those of [src/wasm.go];
    - [testhost], [events], [spec], [fixtures]: a small host, the host's
      event dispatch, the vocabulary of the statements and the heaps they
      are run on.

    The properties follow, each claim under its number, and after them
    further properties of the same functions and of their neighbours. *)

From Stdlib Require Import ZArith.
From stdpp Require Import gmap strings list pretty.

Local Open Scope string_scope.
Local Open Scope Z_scope.

(** ** The [syscall/js] interface *)

Module js.

(** [js.Type]: the kind of a JavaScript value. *)
Inductive Type_ : Set :=
| TypeUndefined
| TypeNull
| TypeBoolean
| TypeNumber
| TypeString
| TypeSymbol
| TypeObject
| TypeFunction.

#[global] Instance Type_eq_dec : EqDecision Type_.
Proof. solve_decision. Defined.

(** [Type.String]. *)
Definition Type_String (t : Type_) : string :=
  match t with
  | TypeUndefined => "undefined"
  | TypeNull => "null"
  | TypeBoolean => "boolean"
  | TypeNumber => "number"
  | TypeString => "string"
  | TypeSymbol => "symbol"
  | TypeObject => "object"
  | TypeFunction => "function"
  end.

(** [Type.isObject]: objects and functions carry properties. *)
Definition isObject (t : Type_) : bool :=
  match t with
  | TypeObject | TypeFunction => true
  | _ => false
  end.

(** A JavaScript number is an IEEE double.  The package observes a number
    through three accessors only, so a number is represented by what they
    return: [Value.Int] (the truncation to a Go [int]), the host's
    [String(v)] and [Value.Truthy] (false for [0] and [NaN]). *)
Record Number : Set := mkNumber {
  num_int : Z;
  num_text : string;
  num_truthy : bool
}.

#[global] Instance Number_eq_dec : EqDecision Number.
Proof. solve_decision. Defined.

(** The number with an integral value. *)
Definition int_number (z : Z) : Number :=
  {| num_int := z; num_text := pretty z; num_truthy := negb (z =? 0) |}.

(** [js.Value]: primitives are carried by value, objects and functions are
    references into the host heap. *)
Inductive Value : Set :=
| VUndefined
| VNull
| VBoolean (b : bool)
| VNumber (n : Number)
| VString (s : string)
| VSymbol (id : positive)
| VObject (ref : positive)
| VFunction (ref : positive).

#[global] Instance Value_eq_dec : EqDecision Value.
Proof. solve_decision. Defined.

Definition Undefined : Value := VUndefined.
Definition Null : Value := VNull.

(** [Value.Type]. *)
Definition Value_Type (v : Value) : Type_ :=
  match v with
  | VUndefined => TypeUndefined
  | VNull => TypeNull
  | VBoolean _ => TypeBoolean
  | VNumber _ => TypeNumber
  | VString _ => TypeString
  | VSymbol _ => TypeSymbol
  | VObject _ => TypeObject
  | VFunction _ => TypeFunction
  end.

(** The host's [String(v)], as [jsString] uses it on booleans, numbers and
    strings. *)
Definition jsString (v : Value) : string :=
  match v with
  | VString s => s
  | VBoolean true => "true"
  | VBoolean false => "false"
  | VNumber n => num_text n
  | _ => EmptyString
  end.

(** [Value.String]: never panics; a value that is not a string is rendered
    as ["<T>"] or ["<T: V>"]. *)
Definition Value_String (v : Value) : string :=
  match Value_Type v with
  | TypeString => jsString v
  | TypeUndefined => "<undefined>"
  | TypeNull => "<null>"
  | TypeBoolean => "<boolean: " +:+ jsString v +:+ ">"
  | TypeNumber => "<number: " +:+ jsString v +:+ ">"
  | TypeSymbol => "<symbol>"
  | TypeObject => "<object>"
  | TypeFunction => "<function>"
  end.

(** [Value.Truthy]. *)
Definition Value_Truthy (v : Value) : bool :=
  match v with
  | VUndefined | VNull => false
  | VBoolean b => b
  | VNumber n => num_truthy n
  | VString _ => negb (String.eqb (Value_String v) EmptyString)
  | VSymbol _ | VFunction _ | VObject _ => true
  end.

(** A host object: its properties as [Reflect.get] sees them, and the
    event listeners registered on it (name and callable). *)
Record Object : Type := mkObject {
  props : gmap string Value;
  listeners : list (string * Value)
}.

Abbreviation Heap := (gmap positive Object).

(** What a Go panic carries. *)
Inductive PanicValue : Type :=
| ValueError (method : string) (t : Type_)
| PanicString (msg : string)
| Error (v : Value).

(** One completed method call on the host. *)
Record HostCall : Type := mkHostCall {
  call_recv : Value;
  call_method : string;
  call_args : list Value
}.

(** The state a program of the package runs in: the host heap, the lines
    written to standard output, the counter [syscall/js] numbers wrapped Go
    functions with, and the method calls the host has served so far. *)
Record World : Type := mkWorld {
  heap : Heap;
  stdout : list string;
  nextFuncID : nat;
  hostCalls : list HostCall
}.

(** A Go computation either returns or panics. *)
Inductive Outcome (A : Type) : Type :=
| Ok (a : A) (w : World)
| Panic (p : PanicValue) (w : World).
Arguments Ok {A} a w.
Arguments Panic {A} p w.

Definition M (A : Type) : Type := World -> Outcome A.

#[global] Instance M_ret : MRet M := fun A a w => Ok a w.
#[global] Instance M_bind : MBind M := fun A B f m w =>
  match m w with
  | Ok a w' => f a w'
  | Panic p w' => Panic p w'
  end.

Definition panic {A : Type} (p : PanicValue) : M A := fun w => Panic p w.

(** The world an outcome ends in. *)
Definition final {A : Type} (o : Outcome A) : World :=
  match o with
  | Ok _ w => w
  | Panic _ w => w
  end.

Definition panicked {A : Type} (o : Outcome A) : bool :=
  match o with
  | Ok _ _ => false
  | Panic _ _ => true
  end.

(** [Reflect.get] on an object reference: an absent property reads as
    undefined. *)
Definition get_property (h : Heap) (ref : positive) (p : string) : Value :=
  match h !! ref with
  | Some o => default VUndefined (props o !! p)
  | None => VUndefined
  end.

(** [Value.Get]: panics unless [v] is an object or a function. *)
Definition Value_Get (v : Value) (p : string) : M Value := fun w =>
  match v with
  | VObject ref | VFunction ref => Ok (get_property (heap w) ref p) w
  | _ => Panic (ValueError "Value.Get" (Value_Type v)) w
  end.

(** [Value.Int]: panics unless [v] is a number. *)
Definition Value_Int (v : Value) : M Z :=
  match v with
  | VNumber n => mret (num_int n)
  | _ => panic (ValueError "Value.Int" (Value_Type v))
  end.

(** [Value.Bool]: panics unless [v] is a boolean. *)
Definition Value_Bool (v : Value) : M bool :=
  match v with
  | VBoolean b => mret b
  | _ => panic (ValueError "Value.Bool" (Value_Type v))
  end.

(** What the host answers to a method call. *)
Inductive CallResult : Type :=
| Returned (v : Value)
| Threw (err : Value).

(** The host: how a method of an object acts on the heap. *)
Definition Host : Type := Heap -> Value -> string -> list Value -> CallResult * Heap.

Definition served (w : World) (h : Heap) (c : HostCall) : World :=
  {| heap := h; stdout := stdout w; nextFuncID := nextFuncID w;
     hostCalls := hostCalls w ++ [c] |}.

(** [Value.Call]: panics when [v] is not an object, when its property [m]
    is not a function, and when the method throws. *)
Definition Value_Call (host : Host) (v : Value) (m : string) (args : list Value) : M Value :=
  fun w =>
  if negb (isObject (Value_Type v)) then Panic (ValueError "Value.Call" (Value_Type v)) w
  else
    match Value_Get v m w with
    | Panic p w' => Panic p w'
    | Ok f _ =>
        if decide (Value_Type f = TypeFunction) then
          match host (heap w) v m args with
          | (Returned r, h) => Ok r (served w h (mkHostCall v m args))
          | (Threw err, h) => Panic (Error err) (served w h (mkHostCall v m args))
          end
        else Panic (PanicString ("syscall/js: Value.Call: property " +:+ m +:+
                                 " is not a function, got " +:+ Type_String (Value_Type f))) w
    end.

(** Go's [any], as far as a listener returns it: [nil] or a boxed value. *)
Inductive any : Type :=
| nil
| any_Value (v : Value)
| any_string (s : string)
| any_int (z : Z)
| any_bool (b : bool).

(** [js.Func]: a wrapped Go function.  [Func_id] is its key in the table of
    wrapped functions, [Func_Value] the host function that calls back into
    Go, and [Func_go] the table entry, the Go function itself. *)
Record Func : Type := mkFunc {
  Func_id : nat;
  Func_Value : Value;
  Func_go : Value -> list Value -> M any
}.

(** [js.FuncOf]: takes the next identifier and has the host create a new
    function object. *)
Definition FuncOf (fn : Value -> list Value -> M any) : M Func := fun w =>
  let ref := fresh (dom (heap w)) in
  Ok {| Func_id := nextFuncID w; Func_Value := VFunction ref; Func_go := fn |}
     {| heap := <[ref := mkObject ∅ []]> (heap w); stdout := stdout w;
        nextFuncID := S (nextFuncID w); hostCalls := hostCalls w |}.

(** [fmt.Printf], given the formatted line. *)
Definition Printf (line : string) : M unit := fun w =>
  Ok tt {| heap := heap w; stdout := stdout w ++ [line]; nextFuncID := nextFuncID w;
           hostCalls := hostCalls w |}.

End js.

(** ** [src/wasm.go] *)

Module wasm.
Import js.

(** Go's [error]: a message. *)
Inductive error : Type :=
| errorString (msg : string).

Definition error_Error (e : error) : string :=
  match e with errorString msg => msg end.

(** The line feed ending every trace line. *)
Definition LF : string := String (Ascii.ascii_of_nat 10) EmptyString.

Section Package.

(** The host the package runs in, and [strconv.Quote], which formats [%q]. *)
Variable host : Host.
Variable quote : string -> string.

(** [js.Global()]. *)
Variable Global : Value.

(** [DocHolder]: the main entry object. *)
Record DocHolder : Type := mkDocHolder { doc : Value }.

Definition GetDoc : M (option DocHolder * option error) :=
  doc ← Value_Get Global "document";
  if negb (Value_Truthy doc) then mret (None, Some (errorString "cannot get document"))
  else mret (Some (mkDocHolder doc), None).

Definition GetElementByID (g : DocHolder) (id : string) : M (Value * option error) :=
  elt ← Value_Call host (doc g) "getElementById" [VString id];
  if negb (Value_Truthy elt) then
    mret (Undefined, Some (errorString ("cannot find elt with id " +:+ quote id)))
  else mret (elt, None).

Definition CreateElement (g : DocHolder) (typ : string) : M Value :=
  Value_Call host (doc g) "createElement" [VString typ].

(** [GetClassList]: the class list of [obj] and its length. *)
Definition GetClassList (obj : Value) : M (Value * Z) :=
  clist ← Value_Get obj "classList";
  if decide (Value_Type clist = TypeUndefined) then mret (clist, 0)
  else
    len ← Value_Get clist "length";
    if decide (Value_Type len = TypeNumber) then
      n ← Value_Int len; mret (clist, n)
    else mret (Undefined, 0).

(** [Dbg]: a human-readable representation of a value.  [sb] is the string
    builder; [%s] formats a [js.Value] with its [String] method. *)
Definition Dbg (v : Value) : M string :=
  match Value_Type v with
  | TypeObject =>
      let sb := "<obj" in
      id ← Value_Get v "id";
      let sb :=
        if bool_decide (Value_Type id ≠ TypeUndefined) && negb (String.eqb (Value_String id) EmptyString)
        then sb +:+ " id=" +:+ Value_String id else sb in
      typ ← Value_Get v "type";
      let sb :=
        if bool_decide (Value_Type typ ≠ TypeUndefined)
        then sb +:+ " type=" +:+ Value_String typ else sb in
      '(clist, n) ← GetClassList v;
      sb ← (if 0 <? n then
              value ← Value_Get clist "value"; mret (sb +:+ " cls=" +:+ Value_String value)
            else mret sb);
      mret (sb +:+ ">")
  | _ => mret (Value_String v)
  end.

(** [EventListener]: an event name and the wrapped Go function. *)
Record EventListener : Type := mkEventListener {
  name : string;
  fn : Func
}.

(** The Go function [NewEventListener] wraps. *)
Definition listener (evt : string) (fn : Value -> Value -> M any)
    (this : Value) (args : list Value) : M any :=
  if negb (Value_Truthy this) then
    Printf ("event " +:+ quote evt +:+ " this is not truthy" +:+ LF);; mret nil
  else if negb (length args =? 1)%nat then
    Printf ("event " +:+ quote evt +:+ " len(args)=" +:+ pretty (length args) +:+ LF);;
    mret nil
  else
    let arg0 := default VUndefined (args !! 0%nat) in
    if negb (Value_Truthy arg0) then
      Printf ("event " +:+ quote evt +:+ " arg[0] is not truthy" +:+ LF);; mret nil
    else
      s_this ← Dbg this;
      s_evt ← Dbg arg0;
      target ← Value_Get arg0 "target";
      s_target ← Dbg target;
      Printf ("Event " +:+ quote evt +:+ " called on " +:+ s_this +:+ " evt=" +:+ s_evt +:+
              " target=" +:+ s_target +:+ LF);;
      fn this arg0.

(** [NewEventListener] creates a new event listener. *)
Definition NewEventListener (evt : string) (fn : Value -> Value -> M any) : M EventListener :=
  f ← FuncOf (listener evt fn);
  mret {| name := evt; fn := f |}.

(** [Add] adds the event listener to a JS object. *)
Definition Add (e : EventListener) (elt : Value) : M unit :=
  s ← Dbg elt;
  Printf ("Adding event listener " +:+ quote (name e) +:+ " to " +:+ s +:+ LF);;
  Value_Call host elt "addEventListener" [VString (name e); Func_Value (fn e)];;
  mret tt.

(** [Remove] removes the event listener from a JS object. *)
Definition Remove (e : EventListener) (elt : Value) : M unit :=
  s ← Dbg elt;
  Printf ("Removing event listener " +:+ quote (name e) +:+ " from " +:+ s +:+ LF);;
  Value_Call host elt "removeEventListener" [VString (name e); Func_Value (fn e)];;
  mret tt.

End Package.
End wasm.

(** ** The second source file

    Its first 75 lines are those of [src/wasm.go]; the class list is a type
    of its own here, and [Dbg] goes through it. *)

Module part_000.
Import js.

(** [ClassList] represents the CSS class list of an element; the type is
    [js.Value] under another name. *)
Record ClassList : Type := mkClassList { ClassList_Value : Value }.

Section Package.

Variable host : Host.

(** [GetClassList] returns the [ClassList] of the object. *)
Definition GetClassList (obj : Value) : M ClassList :=
  clist ← Value_Get obj "classList";
  if decide (Value_Type clist = TypeUndefined) then mret (mkClassList clist)
  else
    len ← Value_Get clist "length";
    nonempty ← (if decide (Value_Type len = TypeNumber) then
                  n ← Value_Int len; mret (0 <? n)
                else mret false);
    if (nonempty : bool) then mret (mkClassList clist)
    else mret (mkClassList Undefined).

(** [Contains] returns true if a class list contains the specific class. *)
Definition Contains (c : ClassList) (s : string) : M bool :=
  let clist := ClassList_Value c in
  if decide (Value_Type clist = TypeUndefined) then mret false
  else r ← Value_Call host clist "contains" [VString s]; Value_Bool r.

(** [Add] adds the class to the class list. *)
Definition Add (c : ClassList) (s : string) : M unit :=
  let clist := ClassList_Value c in
  if decide (Value_Type clist = TypeUndefined) then mret tt
  else Value_Call host clist "add" [VString s];; mret tt.

(** [Remove] removes the class from the class list. *)
Definition Remove (c : ClassList) (s : string) : M unit :=
  let clist := ClassList_Value c in
  if decide (Value_Type clist = TypeUndefined) then mret tt
  else Value_Call host clist "remove" [VString s];; mret tt.

(** [String] returns the string representation of the class list. *)
Definition ClassList_String (c : ClassList) : M string :=
  let clist := ClassList_Value c in
  if decide (Value_Type clist = TypeUndefined) then mret EmptyString
  else value ← Value_Get (ClassList_Value c) "value"; mret (Value_String value).

(** [Dbg]: a human-readable representation of a value. *)
Definition Dbg (v : Value) : M string :=
  match Value_Type v with
  | TypeObject =>
      let sb := "<obj" in
      id ← Value_Get v "id";
      let sb :=
        if bool_decide (Value_Type id ≠ TypeUndefined) && negb (String.eqb (Value_String id) EmptyString)
        then sb +:+ " id=" +:+ Value_String id else sb in
      typ ← Value_Get v "type";
      let sb :=
        if bool_decide (Value_Type typ ≠ TypeUndefined)
        then sb +:+ " type=" +:+ Value_String typ else sb in
      clist ← GetClassList v;
      cls ← ClassList_String clist;
      let sb := if negb (String.eqb cls EmptyString) then sb +:+ " cls=" +:+ cls else sb in
      mret (sb +:+ ">")
  | _ => mret (Value_String v)
  end.

End Package.
End part_000.

(** ** A small host to run the package on *)

Module testhost.
Import js.

(** A data object with the given properties. *)
Definition obj (ps : list (string * Value)) : Object :=
  mkObject (list_to_map ps) [].

Definition add_listener (n : string) (f : Value) (l : list (string * Value)) :
    list (string * Value) :=
  if bool_decide ((n, f) ∈ l) then l else l ++ [(n, f)].

Definition remove_listener (n : string) (f : Value) (l : list (string * Value)) :
    list (string * Value) :=
  filter (fun x => x ≠ (n, f)) l.

Definition update_listeners (h : Heap) (ref : positive)
    (f : list (string * Value) -> list (string * Value)) : Heap :=
  alter (fun o => mkObject (props o) (f (listeners o))) ref h.

(** The methods the package calls.  [getElementById] reads the entry the
    receiver keeps for the identifier ([null] when there is none), the
    listener methods keep the receiver's registry, and anything else returns
    undefined. *)
Definition browser : Host := fun h recv m args =>
  match recv with
  | VObject ref | VFunction ref =>
      if String.eqb m "getElementById" then
        match args with
        | [VString id] =>
            (Returned (match get_property h ref ("#" +:+ id) with
                       | VUndefined => VNull
                       | v => v
                       end), h)
        | _ => (Returned VNull, h)
        end
      else if String.eqb m "addEventListener" then
        match args with
        | [VString n; f] => (Returned VUndefined, update_listeners h ref (add_listener n f))
        | _ => (Returned VUndefined, h)
        end
      else if String.eqb m "removeEventListener" then
        match args with
        | [VString n; f] => (Returned VUndefined, update_listeners h ref (remove_listener n f))
        | _ => (Returned VUndefined, h)
        end
      else (Returned VUndefined, h)
  | _ => (Returned VUndefined, h)
  end.

(** [strconv.Quote] on strings that need no escaping. *)
Definition DQ : string := String (Ascii.ascii_of_nat 34) EmptyString.

Definition quote (s : string) : string := DQ +:+ s +:+ DQ.

Definition world (h : Heap) : World :=
  {| heap := h; stdout := []; nextFuncID := 1; hostCalls := [] |}.

(** A host for class lists: the list keeps one entry per class; [contains]
    answers with a boolean, [add] and [remove] update the entry.  Any other
    method is the browser's. *)
Definition classes : Host := fun h recv m args =>
  match recv, args with
  | VObject ref, [VString c] =>
      if String.eqb m "contains" then
        (Returned (VBoolean (bool_decide (get_property h ref ("." +:+ c) ≠ VUndefined))), h)
      else if String.eqb m "add" then
        (Returned VUndefined,
         alter (fun o => mkObject (<["." +:+ c := VBoolean true]> (props o)) (listeners o)) ref h)
      else if String.eqb m "remove" then
        (Returned VUndefined,
         alter (fun o => mkObject (delete ("." +:+ c) (props o)) (listeners o)) ref h)
      else browser h recv m args
  | _, _ => browser h recv m args
  end.

End testhost.

(** ** Native event dispatch *)

Module events.
Import js.

(** The listeners registered on a target. *)
Definition listeners_of (h : Heap) (target : Value) : list (string * Value) :=
  match target with
  | VObject ref | VFunction ref =>
      match h !! ref with
      | Some o => listeners o
      | None => []
      end
  | _ => []
  end.

(** The callables the host invokes when it dispatches [evt] on [target]. *)
Definition fired (h : Heap) (target : Value) (evt : string) : list Value :=
  (filter (fun x => x.1 = evt) (listeners_of h target)).*2.

(** The host invokes the callables in order, the target as [this] and the
    event as the only argument.  A callable that wraps a Go function of the
    table [funcs] runs that function; the result lists the identifiers of the
    Go functions run. *)
Fixpoint run (funcs : list Func) (callables : list Value) (this ev : Value) : M (list nat) :=
  match callables with
  | [] => mret []
  | c :: rest =>
      match list_find (fun f => Func_Value f = c) funcs with
      | Some (_, f) =>
          Func_go f this [ev];;
          ids ← run funcs rest this ev;
          mret (Func_id f :: ids)
      | None => run funcs rest this ev
      end
  end.

Definition dispatch (funcs : list Func) (target : Value) (evt : string) (ev : Value) :
    M (list nat) :=
  fun w => run funcs (fired (heap w) target evt) target ev w.

End events.

(** ** The vocabulary of the statements *)

Module spec.
Import js.

(** The property [p] of [v] on the heap; undefined for a value that carries
    no properties. *)
Definition prop (h : Heap) (v : Value) (p : string) : Value :=
  match v with
  | VObject ref | VFunction ref => get_property h ref p
  | _ => VUndefined
  end.

(** The [classList] attribute can be asked for its length: it is undefined,
    or an object. *)
Definition classList_readable (h : Heap) (v : Value) : bool :=
  let clist := prop h v "classList" in
  bool_decide (clist = VUndefined) || isObject (Value_Type clist).

(** The length of the class list as [Value.Int] reads it, truncated to a Go
    [int]; [0] when the length is no number. *)
Definition class_count (h : Heap) (v : Value) : Z :=
  match prop h (prop h v "classList") "length" with
  | VNumber n => num_int n
  | _ => 0
  end.

(** The class list reports a number as its length. *)
Definition reports_length (h : Heap) (v : Value) : bool :=
  bool_decide (Value_Type (prop h (prop h v "classList") "length") = TypeNumber).

(** The [value] attribute of the class list. *)
Definition class_value (h : Heap) (v : Value) : Value :=
  prop h (prop h v "classList") "value".

(** One bracketed segment of a description. *)
Definition segment (label : string) (shown : bool) (text : string) : string :=
  if shown then " " +:+ label +:+ "=" +:+ text else EmptyString.

(** The description of a value: [<obj[ id=..][ type=..][ cls=..]>] for an
    object, the value's own text otherwise.  The [cls] segment is there when
    [Value.Int] reads the length of the class list as positive. *)
Definition describe (h : Heap) (v : Value) : string :=
  match Value_Type v with
  | TypeObject =>
      let id := prop h v "id" in
      let typ := prop h v "type" in
      "<obj"
      +:+ segment "id" (bool_decide (Value_Type id ≠ TypeUndefined)
                        && negb (String.eqb (Value_String id) EmptyString))
                  (Value_String id)
      +:+ segment "type" (bool_decide (Value_Type typ ≠ TypeUndefined)) (Value_String typ)
      +:+ segment "cls" (0 <? class_count h v) (Value_String (class_value h v))
      +:+ ">"
  | _ => Value_String v
  end.

(** The call that registers or unregisters the listener [e] on [elt]. *)
Definition registration (e : wasm.EventListener) (elt : Value) (m : string) : HostCall :=
  mkHostCall elt m [VString (wasm.name e); Func_Value (wasm.fn e)].

(** A class list whose length [Value.Int] reads as positive and whose
    [value] is the empty string. *)
Definition blank_classes (h : Heap) (v : Value) : bool :=
  bool_decide (Value_Type v = TypeObject)
  && (0 <? class_count h v)
  && bool_decide (class_value h v = VString EmptyString).

(** [Dbg] can describe the value: it is no object, or an object whose class
    list can be asked for its length. *)
Definition describable (h : Heap) (v : Value) : bool :=
  negb (bool_decide (Value_Type v = TypeObject)) || classList_readable h v.

(** The description the second file gives: the [cls] segment needs, beside a
    length that [Value.Int] reads as positive, a class text that is not
    empty. *)
Definition describe_classes (h : Heap) (v : Value) : string :=
  match Value_Type v with
  | TypeObject =>
      let id := prop h v "id" in
      let typ := prop h v "type" in
      let cls := Value_String (class_value h v) in
      "<obj"
      +:+ segment "id" (bool_decide (Value_Type id ≠ TypeUndefined)
                        && negb (String.eqb (Value_String id) EmptyString))
                  (Value_String id)
      +:+ segment "type" (bool_decide (Value_Type typ ≠ TypeUndefined)) (Value_String typ)
      +:+ segment "cls" ((0 <? class_count h v) && negb (String.eqb cls EmptyString)) cls
      +:+ ">"
  | _ => Value_String v
  end.

(** The world after one more line on standard output. *)
Definition logged (w : World) (line : string) : World :=
  {| heap := heap w; stdout := stdout w ++ [line]; nextFuncID := nextFuncID w;
     hostCalls := hostCalls w |}.

(** [Add] and [Remove] get as far as the method [m] of the target: [Dbg]
    can describe the target, the target is an object, and its property [m]
    is a function. *)
Definition accepts (h : Heap) (elt : Value) (m : string) : bool :=
  describable h elt && isObject (Value_Type elt)
  && bool_decide (Value_Type (prop h elt m) = TypeFunction).

(** What a method call the host serves comes to, its result dropped: the
    heap is the one the host leaves, the call is on record, and a throw is a
    panic. *)
Definition call_outcome (host : Host) (w : World) (recv : Value) (m : string)
    (args : list Value) : Outcome unit :=
  match host (heap w) recv m args with
  | (Returned _, h) => Ok tt (served w h (mkHostCall recv m args))
  | (Threw err, h) => Panic (Error err) (served w h (mkHostCall recv m args))
  end.

End spec.

(** ** Heaps the statements are run on *)

Module fixtures.
Import js testhost.

(** An element with id [foo] and the class list [bar]. *)
Definition foo_bar : Heap :=
  list_to_map
    [(1%positive, obj [("id", VString "foo"); ("classList", VObject 2)]);
     (2%positive, obj [("length", VNumber (int_number 1)); ("value", VString "bar")])].

(** An object whose [classList] attribute is [null]. *)
Definition null_classList : Heap :=
  list_to_map [(1%positive, obj [("classList", VNull)])].

(** An object whose [id] attribute is [null]. *)
Definition null_id : Heap :=
  list_to_map [(1%positive, obj [("id", VNull)])].

(** An object whose class list has length 1 and an empty [value]. *)
Definition blank_value : Heap :=
  list_to_map
    [(1%positive, obj [("classList", VObject 2)]);
     (2%positive, obj [("length", VNumber (int_number 1)); ("value", VString EmptyString)])].

(** Object 1 has an empty class list, object 3 has none. *)
Definition empty_list : Heap :=
  list_to_map
    [(1%positive, obj [("classList", VObject 2)]);
     (2%positive, obj [("length", VNumber (int_number 0)); ("value", VString EmptyString)]);
     (3%positive, obj [])].

(** A document (object 1) that knows the element [main] (object 2), and a
    click event (object 3) on that element. *)
Definition page : Heap :=
  list_to_map
    [(1%positive, obj [("getElementById", VFunction 10); ("#main", VObject 2)]);
     (2%positive, obj [("id", VString "main");
                       ("addEventListener", VFunction 11);
                       ("removeEventListener", VFunction 12)]);
     (3%positive, obj [("type", VString "click"); ("target", VObject 2)])].

Definition document : wasm.DocHolder := wasm.mkDocHolder (VObject 1).

(** A listener for [click] whose handler returns its event. *)
Definition echo (this ev : Value) : M any := mret (any_Value ev).

Definition click : wasm.EventListener :=
  {| wasm.name := "click";
     wasm.fn := {| Func_id := 1; Func_Value := VFunction 20;
                   Func_go := wasm.listener quote "click" echo |} |}.

(** The page once [click] is added to [main], and once it is removed again. *)
Definition page_added : World :=
  final (wasm.Add browser quote click (VObject 2) (world page)).

Definition page_removed : World :=
  final (wasm.Remove browser quote click (VObject 2) page_added).

(** An element whose class list reports the length 0.5, which [Value.Int]
    truncates to 0. *)
Definition half_length : Heap :=
  list_to_map
    [(1%positive, obj [("id", VString "foo"); ("classList", VObject 2)]);
     (2%positive, obj [("length", VNumber (mkNumber 0 "0.5" true));
                       ("value", VString "bar")])].

(** The global object (object 5) of a page with a document, and of a host
    whose [document] is a string. *)
Definition window : Heap :=
  list_to_map
    [(5%positive, obj [("document", VObject 1)]);
     (1%positive, obj [("getElementById", VFunction 10); ("createElement", VFunction 13)])].

Definition odd_window : Heap :=
  list_to_map [(5%positive, obj [("document", VString "about:blank")])].

(** An element (object 1) with the classes [a] and [b]. *)
Definition two_classes : Heap :=
  list_to_map
    [(1%positive, obj [("id", VString "box"); ("classList", VObject 2)]);
     (2%positive, obj [("length", VNumber (int_number 2)); ("value", VString "a b");
                       (".a", VBoolean true); (".b", VBoolean true);
                       ("contains", VFunction 14); ("add", VFunction 15);
                       ("remove", VFunction 16)])].

End fixtures.

(** * Properties *)

Import js spec.

(** ** Strings *)

Lemma append_cons (x : Ascii.ascii) (a b : string) : String x a +:+ b = String x (a +:+ b).
Proof. reflexivity. Qed.

Lemma append_assoc (a b c : string) : (a +:+ b) +:+ c = a +:+ b +:+ c.
Proof. induction a as [|x a IH]; [reflexivity | by rewrite !append_cons, IH]. Qed.

Lemma append_empty_r (a : string) : a +:+ EmptyString = a.
Proof. induction a as [|x a IH]; [reflexivity | by rewrite append_cons, IH]. Qed.

(** Only the empty string has an empty [String] form. *)
Lemma Value_String_empty (v : Value) :
  Value_String v = EmptyString <-> v = VString EmptyString.
Proof.
  split; [| by intros ->].
  destruct v as [| | [] | n | s | | |]; try discriminate.
  cbn. by intros ->.
Qed.

(** ** Reading the heap *)

Lemma Value_Get_ref (v : Value) (p : string) (w : World) :
  isObject (Value_Type v) = true -> Value_Get v p w = Ok (prop (heap w) v p) w.
Proof. by destruct v. Qed.

Lemma Value_Get_primitive (v : Value) (p : string) (w : World) :
  isObject (Value_Type v) = false ->
  Value_Get v p w = Panic (ValueError "Value.Get" (Value_Type v)) w.
Proof. by destruct v. Qed.

Lemma class_count_ref (h : Heap) (obj : Value) :
  0 < class_count h obj -> isObject (Value_Type (prop h obj "classList")) = true.
Proof. unfold class_count. by destruct (prop h obj "classList"). Qed.

(** ** [GetClassList] *)

Lemma wasm_GetClassList_unfold (obj : Value) (w : World) :
  isObject (Value_Type obj) = true ->
  wasm.GetClassList obj w =
    let clist := prop (heap w) obj "classList" in
    if decide (clist = VUndefined) then Ok (VUndefined, 0) w
    else if isObject (Value_Type clist) then
      match prop (heap w) clist "length" with
      | VNumber n => Ok (clist, num_int n) w
      | _ => Ok (VUndefined, 0) w
      end
    else Panic (ValueError "Value.Get" (Value_Type clist)) w.
Proof.
  intros Hobj. unfold wasm.GetClassList, mbind, M_bind.
  rewrite (Value_Get_ref _ _ _ Hobj). simpl.
  destruct (prop (heap w) obj "classList") eqn:E; simpl; try reflexivity.
  all: destruct (get_property (heap w) ref "length"); reflexivity.
Qed.

Lemma part_GetClassList_unfold (obj : Value) (w : World) :
  isObject (Value_Type obj) = true ->
  part_000.GetClassList obj w =
    let clist := prop (heap w) obj "classList" in
    if decide (clist = VUndefined) then Ok (part_000.mkClassList VUndefined) w
    else if isObject (Value_Type clist) then
      Ok (part_000.mkClassList (if 0 <? class_count (heap w) obj then clist else VUndefined)) w
    else Panic (ValueError "Value.Get" (Value_Type clist)) w.
Proof.
  intros Hobj. unfold part_000.GetClassList, mbind, M_bind, class_count.
  rewrite (Value_Get_ref _ _ _ Hobj). simpl.
  destruct (prop (heap w) obj "classList") eqn:E; simpl; try reflexivity.
  all: destruct (get_property (heap w) ref "length") as [| | | n | | | |]; try reflexivity.
  all: simpl; unfold mret, M_ret; by destruct (0 <? num_int n).
Qed.

(** With a readable class list, [GetClassList] of [src/wasm.go] returns the
    reported length, and the class list itself when that is a number. *)
Lemma wasm_GetClassList_readable (obj : Value) (w : World) :
  isObject (Value_Type obj) = true ->
  classList_readable (heap w) obj = true ->
  wasm.GetClassList obj w =
    Ok (if reports_length (heap w) obj then prop (heap w) obj "classList" else VUndefined,
        class_count (heap w) obj) w.
Proof.
  intros Hobj Hcl. rewrite wasm_GetClassList_unfold by done. cbv zeta.
  unfold classList_readable in Hcl. unfold class_count, reports_length.
  destruct (decide (prop (heap w) obj "classList" = VUndefined)) as [Hu|Hu].
  - by rewrite Hu.
  - rewrite bool_decide_eq_false_2 in Hcl by done. simpl in Hcl. rewrite Hcl.
    by destruct (prop (heap w) (prop (heap w) obj "classList") "length").
Qed.

(** With a readable class list, [GetClassList] of the second file returns the
    class list when it reports a positive length, and undefined otherwise. *)
Lemma part_GetClassList_readable (obj : Value) (w : World) :
  isObject (Value_Type obj) = true ->
  classList_readable (heap w) obj = true ->
  part_000.GetClassList obj w =
    Ok (part_000.mkClassList
          (if 0 <? class_count (heap w) obj then prop (heap w) obj "classList"
           else VUndefined)) w.
Proof.
  intros Hobj Hcl. rewrite part_GetClassList_unfold by done. cbv zeta.
  unfold classList_readable in Hcl.
  destruct (decide (prop (heap w) obj "classList" = VUndefined)) as [Hu|Hu].
  - unfold class_count. by rewrite Hu.
  - rewrite bool_decide_eq_false_2 in Hcl by done. simpl in Hcl. by rewrite Hcl.
Qed.

(** A class list that is neither undefined nor an object makes both variants
    panic, in [Value.Get]. *)
Lemma GetClassList_unreadable (obj : Value) (w : World) :
  isObject (Value_Type obj) = true ->
  classList_readable (heap w) obj = false ->
  let p := ValueError "Value.Get" (Value_Type (prop (heap w) obj "classList")) in
  wasm.GetClassList obj w = Panic p w /\ part_000.GetClassList obj w = Panic p w.
Proof.
  intros Hobj Hcl. rewrite wasm_GetClassList_unfold, part_GetClassList_unfold by done.
  cbv zeta. unfold classList_readable in Hcl. apply orb_false_iff in Hcl as [Hu Ho].
  apply bool_decide_eq_false in Hu. rewrite Ho. by rewrite !decide_False by done.
Qed.

(** ** [Dbg] *)

(** What the string builder holds is the concatenation of the segments. *)
Lemma builder_segments (i t c : bool) (id typ cls : string) :
  ((if t then (if i then "<obj" +:+ " id=" +:+ id else "<obj") +:+ " type=" +:+ typ
    else if i then "<obj" +:+ " id=" +:+ id else "<obj")
   +:+ (if c then " cls=" +:+ cls else EmptyString)) +:+ ">"
  = "<obj" +:+ segment "id" i id +:+ segment "type" t typ +:+ segment "cls" c cls +:+ ">".
Proof.
  unfold segment. destruct i, t, c; rewrite ?append_assoc, ?append_empty_r; reflexivity.
Qed.

Lemma wasm_Dbg_primitive (v : Value) (w : World) :
  Value_Type v <> TypeObject -> wasm.Dbg v w = Ok (Value_String v) w.
Proof. by destruct v. Qed.

Lemma part_Dbg_primitive (v : Value) (w : World) :
  Value_Type v <> TypeObject -> part_000.Dbg v w = Ok (Value_String v) w.
Proof. by destruct v. Qed.

Lemma wasm_Dbg_describe (v : Value) (w : World) :
  Value_Type v = TypeObject ->
  classList_readable (heap w) v = true ->
  wasm.Dbg v w = Ok (describe (heap w) v) w.
Proof.
  intros Ev Hcl. unfold wasm.Dbg, describe. rewrite Ev.
  assert (Hobj : isObject (Value_Type v) = true) by (by rewrite Ev).
  unfold mbind, M_bind. rewrite !(Value_Get_ref v) by done.
  rewrite wasm_GetClassList_readable by done.
  cbv zeta beta iota. rewrite <- builder_segments.
  destruct (0 <? class_count (heap w) v) eqn:En.
  - apply Z.ltb_lt in En.
    assert (Hlen : reports_length (heap w) v = true).
    { unfold reports_length, class_count in *.
      destruct (prop (heap w) (prop (heap w) v "classList") "length"); done || lia. }
    rewrite Hlen, Value_Get_ref by (by apply class_count_ref). reflexivity.
  - unfold mret, M_ret. by rewrite append_empty_r.
Qed.

(** The second file shows the [cls] segment when, in addition, the text of
    the class list is not empty. *)
Lemma part_Dbg_describe (v : Value) (w : World) :
  Value_Type v = TypeObject ->
  classList_readable (heap w) v = true ->
  part_000.Dbg v w =
    let id := prop (heap w) v "id" in
    let typ := prop (heap w) v "type" in
    let cls := Value_String (class_value (heap w) v) in
    Ok ("<obj"
        +:+ segment "id" (bool_decide (Value_Type id ≠ TypeUndefined)
                          && negb (String.eqb (Value_String id) EmptyString))
                    (Value_String id)
        +:+ segment "type" (bool_decide (Value_Type typ ≠ TypeUndefined)) (Value_String typ)
        +:+ segment "cls" ((0 <? class_count (heap w) v) && negb (String.eqb cls EmptyString))
                    cls
        +:+ ">") w.
Proof.
  intros Ev Hcl. unfold part_000.Dbg. rewrite Ev.
  assert (Hobj : isObject (Value_Type v) = true) by (by rewrite Ev).
  unfold mbind, M_bind. rewrite !(Value_Get_ref v) by done.
  rewrite part_GetClassList_readable by done.
  cbv zeta beta iota. rewrite <- builder_segments. unfold part_000.ClassList_String.
  destruct (0 <? class_count (heap w) v) eqn:En; cbn [part_000.ClassList_Value].
  - apply Z.ltb_lt in En. pose proof (class_count_ref _ _ En) as Hc.
    rewrite decide_False by (by destruct (prop (heap w) v "classList")).
    unfold mbind, M_bind. rewrite Value_Get_ref by done.
    unfold mret, M_ret, class_value. cbn [andb].
    destruct (negb _); [reflexivity | by rewrite append_empty_r].
  - unfold mret, M_ret. cbn. by rewrite append_empty_r.
Qed.

(** An object whose class list cannot be read makes both [Dbg] panic. *)
Lemma Dbg_unreadable (v : Value) (w : World) :
  Value_Type v = TypeObject ->
  classList_readable (heap w) v = false ->
  let p := ValueError "Value.Get" (Value_Type (prop (heap w) v "classList")) in
  wasm.Dbg v w = Panic p w /\ part_000.Dbg v w = Panic p w.
Proof.
  intros Ev Hcl.
  assert (Hobj : isObject (Value_Type v) = true) by (by rewrite Ev).
  destruct (GetClassList_unreadable v w Hobj Hcl) as [Ha Hb].
  unfold wasm.Dbg, part_000.Dbg. rewrite Ev.
  unfold mbind, M_bind. rewrite !(Value_Get_ref v) by done.
  by rewrite Ha, Hb.
Qed.

(** [Dbg] only reads: whatever its outcome, the world is as before. *)
Lemma wasm_Dbg_final (v : Value) (w : World) : final (wasm.Dbg v w) = w.
Proof.
  destruct (decide (Value_Type v = TypeObject)) as [Ev|Ev].
  - destruct (classList_readable (heap w) v) eqn:Hcl.
    + by rewrite wasm_Dbg_describe.
    + by rewrite (proj1 (Dbg_unreadable v w Ev Hcl)).
  - by rewrite wasm_Dbg_primitive.
Qed.


(** [Dbg] on a value it can describe. *)
Lemma wasm_Dbg_describable (v : Value) (w : World) :
  describable (heap w) v = true -> wasm.Dbg v w = Ok (describe (heap w) v) w.
Proof.
  unfold describable. intros Hd.
  destruct (decide (Value_Type v = TypeObject)) as [Ev|Ev].
  - rewrite bool_decide_eq_true_2 in Hd by done. by apply wasm_Dbg_describe.
  - rewrite wasm_Dbg_primitive by done. unfold describe. by destruct (Value_Type v).
Qed.

(** [Dbg] panics on the other values, and on them only. *)
Lemma Dbg_panicked (v : Value) (w : World) :
  panicked (wasm.Dbg v w) = negb (describable (heap w) v)
  /\ panicked (part_000.Dbg v w) = negb (describable (heap w) v).
Proof.
  unfold describable.
  destruct (decide (Value_Type v = TypeObject)) as [Ev|Ev].
  - rewrite bool_decide_eq_true_2 by done. cbn [negb orb].
    destruct (classList_readable (heap w) v) eqn:Hcl.
    + by rewrite wasm_Dbg_describe, part_Dbg_describe.
    + by destruct (Dbg_unreadable v w Ev Hcl) as [-> ->].
  - rewrite bool_decide_eq_false_2 by done.
    by rewrite wasm_Dbg_primitive, part_Dbg_primitive.
Qed.

(** ** The class list view *)

(** C3.  On a class list in the unavailable state (its value is undefined),
    for every class name: [Contains] returns false, [String] returns the
    empty string, and [Add] and [Remove] return at once.  Each of the four
    leaves the world as it was: no method of the host is called and nothing
    panics. *)
Theorem ClassList_unavailable (host : Host) (c : part_000.ClassList) (s : string) (w : World) :
  Value_Type (part_000.ClassList_Value c) = TypeUndefined ->
  part_000.Contains host c s w = Ok false w
  /\ part_000.ClassList_String c w = Ok EmptyString w
  /\ part_000.Add host c s w = Ok tt w
  /\ part_000.Remove host c s w = Ok tt w.
Proof.
  intros Hu.
  unfold part_000.Contains, part_000.ClassList_String, part_000.Add, part_000.Remove.
  by rewrite !decide_True by done.
Qed.

Lemma ClassList_unavailable_witness :
  part_000.Contains testhost.browser (part_000.mkClassList VUndefined) "hidden"
    (testhost.world fixtures.page) = Ok false (testhost.world fixtures.page)
  /\ part_000.Add testhost.browser (part_000.mkClassList VUndefined) "hidden"
       (testhost.world fixtures.page) = Ok tt (testhost.world fixtures.page).
Proof.
  pose proof (ClassList_unavailable testhost.browser (part_000.mkClassList VUndefined) "hidden"
                (testhost.world fixtures.page) eq_refl) as (Hc & _ & Ha & _).
  exact (conj Hc Ha).
Defined.

(** C4, as the code has it.  Let the [classList] attribute of an object be
    absent or undefined, or an object whose length is not a number or is a
    number that is not positive.  Then [GetClassList] of the second file
    returns the unavailable view, the undefined value.  [GetClassList] of
    [src/wasm.go] returns a count that is not positive, with the undefined
    value when the length is not a number and with the class list itself when
    it is. *)
Theorem GetClassList_no_classes (obj : Value) (w : World) :
  isObject (Value_Type obj) = true ->
  classList_readable (heap w) obj = true ->
  class_count (heap w) obj <= 0 ->
  part_000.GetClassList obj w = Ok (part_000.mkClassList Undefined) w
  /\ wasm.GetClassList obj w =
       Ok (if reports_length (heap w) obj then prop (heap w) obj "classList" else Undefined,
           class_count (heap w) obj) w.
Proof.
  intros Hobj Hcl Hn. split.
  - rewrite part_GetClassList_readable by done.
    by rewrite (proj2 (Z.ltb_ge _ _) Hn).
  - by apply wasm_GetClassList_readable.
Qed.

Lemma GetClassList_no_classes_witness :
  part_000.GetClassList (VObject 1) (testhost.world fixtures.empty_list)
  = Ok (part_000.mkClassList Undefined) (testhost.world fixtures.empty_list)
  /\ wasm.GetClassList (VObject 1) (testhost.world fixtures.empty_list)
     = Ok (VObject 2, 0) (testhost.world fixtures.empty_list).
Proof.
  refine (GetClassList_no_classes (VObject 1) (testhost.world fixtures.empty_list) _ _ _).
  - reflexivity.
  - reflexivity.
  - vm_compute. discriminate.
Defined.

(** C4 as stated fails on [src/wasm.go]: for a class list that is present
    and empty, [GetClassList] returns the class list itself, which differs
    from the undefined value it returns when the attribute is absent. *)
Lemma GetClassList_empty_list_is_returned :
  wasm.GetClassList (VObject 1) (testhost.world fixtures.empty_list)
  = Ok (VObject 2, 0) (testhost.world fixtures.empty_list)
  /\ wasm.GetClassList (VObject 3) (testhost.world fixtures.empty_list)
     = Ok (Undefined, 0) (testhost.world fixtures.empty_list)
  /\ wasm.GetClassList (VObject 1) (testhost.world fixtures.empty_list)
     <> wasm.GetClassList (VObject 3) (testhost.world fixtures.empty_list).
Proof.
  assert (H1 : wasm.GetClassList (VObject 1) (testhost.world fixtures.empty_list)
               = Ok (VObject 2, 0) (testhost.world fixtures.empty_list))
    by (vm_compute; reflexivity).
  assert (H3 : wasm.GetClassList (VObject 3) (testhost.world fixtures.empty_list)
               = Ok (Undefined, 0) (testhost.world fixtures.empty_list))
    by (vm_compute; reflexivity).
  split; [exact H1 | split; [exact H3 |]].
  rewrite H1, H3. discriminate.
Qed.

(** ** The debug formatter *)

(** C5, as the code has it.  For a value that is not of object kind, [Dbg]
    returns the value's own text.  For an object whose [classList] attribute
    is undefined or an object, [Dbg] returns
    [<obj[ id=..][ type=..][ cls=..]>]: the id segment is there exactly when
    the id attribute is not undefined and its text is not empty (the text of
    an id that is not a string is [<null>], [<number: 7>] and the like), the
    type segment only when the type attribute exists, that is, exactly when
    it is not undefined, and the cls segment only when the class list is
    available and not empty: exactly when the [classList] attribute is an
    object whose [length] is a number that [Value.Int] truncates to a
    positive integer (a length of 0.5 truncates to 0 and shows no segment).
    An object with id [foo], no type and the class list [bar] yields
    [<obj id=foo cls=bar>]. *)
Theorem Dbg_format :
  (forall (v : Value) (w : World),
     Value_Type v <> TypeObject -> wasm.Dbg v w = Ok (Value_String v) w)
  /\ (forall (v : Value) (w : World),
        Value_Type v = TypeObject ->
        classList_readable (heap w) v = true ->
        wasm.Dbg v w = Ok (describe (heap w) v) w)
  /\ wasm.Dbg (VObject 1) (testhost.world fixtures.foo_bar)
     = Ok "<obj id=foo cls=bar>" (testhost.world fixtures.foo_bar).
Proof.
  split; [exact wasm_Dbg_primitive | split; [exact wasm_Dbg_describe |]].
  vm_compute. reflexivity.
Qed.

Lemma Dbg_format_witness :
  wasm.Dbg (VNumber (int_number 7)) (testhost.world fixtures.foo_bar)
  = Ok "<number: 7>" (testhost.world fixtures.foo_bar)
  /\ wasm.Dbg (VObject 1) (testhost.world fixtures.foo_bar)
     = Ok "<obj id=foo cls=bar>" (testhost.world fixtures.foo_bar).
Proof.
  destruct Dbg_format as (Hprim & Hobj & _). split.
  - refine (Hprim (VNumber (int_number 7)) (testhost.world fixtures.foo_bar) _).
    discriminate.
  - exact (Hobj (VObject 1) (testhost.world fixtures.foo_bar) eq_refl eq_refl).
Defined.

(** C5 as stated fails: an id that is [null] is no string, and its segment is
    there; and on an object whose [classList] is [null], [Dbg] returns no
    string at all. *)
Lemma Dbg_null_id_is_shown :
  wasm.Dbg (VObject 1) (testhost.world fixtures.null_id)
  = Ok "<obj id=<null>>" (testhost.world fixtures.null_id)
  /\ prop fixtures.null_id (VObject 1) "id" = VNull
  /\ panicked (wasm.Dbg (VObject 1) (testhost.world fixtures.null_classList)) = true.
Proof. vm_compute. repeat split; reflexivity. Qed.

(** C6 fails on the code: on an object whose [classList] attribute is [null],
    both [Dbg] panic in [Value.Get], which refuses to read the length of a
    value that is not an object. *)
Theorem Dbg_null_classList_panics :
  prop fixtures.null_classList (VObject 1) "classList" = VNull
  /\ wasm.Dbg (VObject 1) (testhost.world fixtures.null_classList)
     = Panic (ValueError "Value.Get" TypeNull) (testhost.world fixtures.null_classList)
  /\ part_000.Dbg (VObject 1) (testhost.world fixtures.null_classList)
     = Panic (ValueError "Value.Get" TypeNull) (testhost.world fixtures.null_classList).
Proof. vm_compute. repeat split; reflexivity. Qed.

(** A class list of length 0.5 counts as empty in both files: [Value.Int]
    truncates the length to 0. *)
Example Dbg_fractional_length :
  wasm.Dbg (VObject 1) (testhost.world fixtures.half_length)
  = Ok "<obj id=foo>" (testhost.world fixtures.half_length)
  /\ part_000.Dbg (VObject 1) (testhost.world fixtures.half_length)
     = Ok "<obj id=foo>" (testhost.world fixtures.half_length)
  /\ part_000.GetClassList (VObject 1) (testhost.world fixtures.half_length)
     = Ok (part_000.mkClassList Undefined) (testhost.world fixtures.half_length).
Proof. vm_compute. repeat split; reflexivity. Qed.

(** ** The two files against each other *)

(** C9, as the code has it.  The two [Dbg] return the same outcome on every
    value, unless the value is an object whose class list has a [length]
    that is a number [Value.Int] truncates to a positive integer, and has the
    empty string as its [value]; there [src/wasm.go] renders an empty [cls]
    segment and the second file renders none.  (A length of 0.5 truncates to
    0: neither file renders a [cls] segment then, and they agree.)  The two
    [GetClassList] panic on the same inputs, and where they return, the count
    of [src/wasm.go] is positive exactly when the view of the second file is
    not undefined, and then both hold the same class list. *)
Theorem Dbg_variants_agree :
  (forall (v : Value) (w : World),
     blank_classes (heap w) v = false -> wasm.Dbg v w = part_000.Dbg v w)
  /\ (forall (v : Value) (w : World),
        blank_classes (heap w) v = true ->
        exists s, wasm.Dbg v w = Ok (s +:+ " cls=" +:+ ">") w
                  /\ part_000.Dbg v w = Ok (s +:+ ">") w)
  /\ (forall (obj : Value) (w : World),
        match wasm.GetClassList obj w, part_000.GetClassList obj w with
        | Ok (c, n) w1, Ok c' w2 =>
            w1 = w2
            /\ (0 < n <-> Value_Type (part_000.ClassList_Value c') <> TypeUndefined)
            /\ (0 < n -> part_000.ClassList_Value c' = c)
        | Panic p1 w1, Panic p2 w2 => p1 = p2 /\ w1 = w2
        | _, _ => False
        end).
Proof.
  split; [| split].
  - intros v w Hb.
    destruct (decide (Value_Type v = TypeObject)) as [Ev|Ev];
      [| by rewrite wasm_Dbg_primitive, part_Dbg_primitive].
    destruct (classList_readable (heap w) v) eqn:Hcl;
      [| destruct (Dbg_unreadable v w Ev Hcl) as [-> ->]; reflexivity].
    rewrite wasm_Dbg_describe, part_Dbg_describe by done.
    unfold describe. rewrite Ev. cbv zeta. do 4 f_equal.
    unfold blank_classes in Hb. rewrite bool_decide_eq_true_2 in Hb by done.
    destruct (0 <? class_count (heap w) v); [| reflexivity].
    cbn [andb] in *. apply bool_decide_eq_false in Hb.
    destruct (String.eqb_spec (Value_String (class_value (heap w) v)) EmptyString) as [He|He];
      [| reflexivity].
    by apply Value_String_empty in He.
  - intros v w Hb. unfold blank_classes in Hb.
    apply andb_true_iff in Hb as [Hb Hv]. apply andb_true_iff in Hb as [Ev Hn].
    apply bool_decide_eq_true in Ev, Hv.
    assert (Hcl : classList_readable (heap w) v = true).
    { unfold classList_readable. apply Z.ltb_lt, class_count_ref in Hn.
      rewrite Hn. apply orb_true_r. }
    rewrite wasm_Dbg_describe, part_Dbg_describe by done.
    unfold describe. rewrite Ev, Hn, Hv. cbv zeta.
    eexists ("<obj" +:+ segment "id" _ _ +:+ segment "type" _ _). split.
    + by rewrite !append_assoc.
    + by rewrite !append_assoc.
  - intros obj w.
    destruct (isObject (Value_Type obj)) eqn:Hobj; [| by destruct obj].
    destruct (classList_readable (heap w) obj) eqn:Hcl;
      [| by destruct (GetClassList_unreadable obj w Hobj Hcl) as [-> ->]].
    rewrite wasm_GetClassList_readable, part_GetClassList_readable by done.
    split; [reflexivity |].
    destruct (0 <? class_count (heap w) obj) eqn:Hn; cbn [part_000.ClassList_Value].
    + apply Z.ltb_lt in Hn. pose proof (class_count_ref _ _ Hn) as Hc.
      assert (Hlen : reports_length (heap w) obj = true).
      { unfold reports_length, class_count in *.
        destruct (prop (heap w) (prop (heap w) obj "classList") "length"); done || lia. }
      rewrite Hlen. split; [split; [| done] | done].
      intros _. by destruct (prop (heap w) obj "classList").
    + apply Z.ltb_ge in Hn. split; [split; [lia | done] | lia].
Qed.

Lemma Dbg_variants_agree_witness :
  wasm.Dbg (VObject 1) (testhost.world fixtures.foo_bar)
  = part_000.Dbg (VObject 1) (testhost.world fixtures.foo_bar).
Proof.
  exact (proj1 Dbg_variants_agree (VObject 1) (testhost.world fixtures.foo_bar) eq_refl).
Defined.

(** C9 as stated fails: on an object whose class list has length 1 and an
    empty [value], [src/wasm.go] renders [<obj cls=>] and the second file
    [<obj>]. *)
Lemma Dbg_variants_differ :
  wasm.Dbg (VObject 1) (testhost.world fixtures.blank_value)
  = Ok "<obj cls=>" (testhost.world fixtures.blank_value)
  /\ part_000.Dbg (VObject 1) (testhost.world fixtures.blank_value)
     = Ok "<obj>" (testhost.world fixtures.blank_value)
  /\ wasm.Dbg (VObject 1) (testhost.world fixtures.blank_value)
     <> part_000.Dbg (VObject 1) (testhost.world fixtures.blank_value).
Proof.
  assert (Ha : wasm.Dbg (VObject 1) (testhost.world fixtures.blank_value)
               = Ok "<obj cls=>" (testhost.world fixtures.blank_value))
    by (vm_compute; reflexivity).
  assert (Hb : part_000.Dbg (VObject 1) (testhost.world fixtures.blank_value)
               = Ok "<obj>" (testhost.world fixtures.blank_value))
    by (vm_compute; reflexivity).
  split; [exact Ha | split; [exact Hb |]].
  rewrite Ha, Hb. discriminate.
Qed.

(** ** Calls into the host *)

Lemma Value_Call_ok (host : Host) (v : Value) (m : string) (args : list Value)
    (w w' : World) (r : Value) :
  Value_Call host v m args w = Ok r w' ->
  host (heap w) v m args = (Returned r, heap w')
  /\ w' = served w (heap w') (mkHostCall v m args).
Proof.
  unfold Value_Call. destruct (negb (isObject (Value_Type v))); [done |].
  destruct (Value_Get v m w) as [f ?|]; [| done].
  destruct (decide (Value_Type f = TypeFunction)); [| done].
  destruct (host (heap w) v m args) as [[r'|err] h]; [| done].
  intros [= <- <-]. done.
Qed.

(** A call leaves the Go side alone, and the host serves at most the one
    method asked for; it has served it when the call returns. *)
Lemma Value_Call_final (host : Host) (v : Value) (m : string) (args : list Value) (w : World) :
  let o := Value_Call host v m args w in
  nextFuncID (final o) = nextFuncID w
  /\ stdout (final o) = stdout w
  /\ (hostCalls (final o) = hostCalls w
      \/ hostCalls (final o) = (hostCalls w ++ [mkHostCall v m args])%list)
  /\ (panicked o = false ->
      hostCalls (final o) = (hostCalls w ++ [mkHostCall v m args])%list).
Proof.
  unfold Value_Call. destruct (negb (isObject (Value_Type v))); [cbn; naive_solver |].
  destruct (Value_Get v m w) as [f ?|] eqn:Eg.
  - destruct (decide (Value_Type f = TypeFunction)); [| cbn; naive_solver].
    destruct (host (heap w) v m args) as [[r'|err] h]; cbn; naive_solver.
  - assert (w0 = w) as ->.
    { destruct v; cbn in Eg; by inversion Eg. }
    cbn. naive_solver.
Qed.

(** ** Looking up elements *)

(** C2.  When the host's lookup returns a falsy value, [GetElementByID]
    returns the error [cannot find elt with id "..."], which quotes the
    identifier; when the lookup returns a truthy value, it returns that value
    and no error.  A value returned without an error is never falsy. *)
Theorem GetElementByID_lookup (host : Host) (quote : string -> string) :
  (forall (g : wasm.DocHolder) (id : string) (w w' : World) (elt : Value),
     Value_Call host (wasm.doc g) "getElementById" [VString id] w = Ok elt w' ->
     (Value_Truthy elt = false ->
      wasm.GetElementByID host quote g id w =
        Ok (Undefined, Some (wasm.errorString ("cannot find elt with id " +:+ quote id))) w')
     /\ (Value_Truthy elt = true ->
         wasm.GetElementByID host quote g id w = Ok (elt, None) w'))
  /\ (forall (g : wasm.DocHolder) (id : string) (w w' : World) (v : Value),
        wasm.GetElementByID host quote g id w = Ok (v, None) w' ->
        Value_Truthy v = true).
Proof.
  split.
  - intros g id w w' elt Hcall. unfold wasm.GetElementByID, mbind, M_bind.
    rewrite Hcall. split; intros ->; reflexivity.
  - intros g id w w' v. unfold wasm.GetElementByID, mbind, M_bind.
    destruct (Value_Call host (wasm.doc g) "getElementById" [VString id] w) as [elt w1|];
      [| done].
    destruct (Value_Truthy elt) eqn:Ht; cbn; [| done].
    by intros [= <- <-].
Qed.

Lemma GetElementByID_lookup_witness :
  wasm.GetElementByID testhost.browser testhost.quote fixtures.document "missing"
    (testhost.world fixtures.page)
  = Ok (Undefined,
        Some (wasm.errorString ("cannot find elt with id " +:+ testhost.quote "missing")))
       (served (testhost.world fixtures.page) fixtures.page
          (mkHostCall (VObject 1) "getElementById" [VString "missing"]))
  /\ wasm.GetElementByID testhost.browser testhost.quote fixtures.document "main"
       (testhost.world fixtures.page)
     = Ok (VObject 2, None)
          (served (testhost.world fixtures.page) fixtures.page
             (mkHostCall (VObject 1) "getElementById" [VString "main"])).
Proof.
  split.
  - refine (proj1 (proj1 (GetElementByID_lookup testhost.browser testhost.quote)
                     fixtures.document "missing" (testhost.world fixtures.page) _ VNull _) _).
    + vm_compute. reflexivity.
    + reflexivity.
  - refine (proj2 (proj1 (GetElementByID_lookup testhost.browser testhost.quote)
                     fixtures.document "main" (testhost.world fixtures.page) _ (VObject 2) _) _).
    + vm_compute. reflexivity.
    + reflexivity.
Defined.

(** C10.  Whenever [GetElementByID] returns an error, the value beside it is
    the undefined value, whatever falsy value the host's lookup produced. *)
Theorem GetElementByID_error_value (host : Host) (quote : string -> string)
    (g : wasm.DocHolder) (id : string) (w w' : World) (v : Value) (e : wasm.error) :
  wasm.GetElementByID host quote g id w = Ok (v, Some e) w' ->
  v = VUndefined.
Proof.
  unfold wasm.GetElementByID, mbind, M_bind.
  destruct (Value_Call host (wasm.doc g) "getElementById" [VString id] w) as [elt w1|];
    [| done].
  destruct (Value_Truthy elt); cbn; [done |].
  by intros [= <- _ _].
Qed.

Lemma GetElementByID_error_value_witness :
  testhost.browser fixtures.page (VObject 1) "getElementById" [VString "missing"]
  = (Returned VNull, fixtures.page)
  /\ match wasm.GetElementByID testhost.browser testhost.quote fixtures.document "missing"
             (testhost.world fixtures.page) with
     | Ok (v, _) _ => v
     | Panic _ _ => VNull
     end = VUndefined.
Proof.
  split; [vm_compute; reflexivity |].
  refine (GetElementByID_error_value testhost.browser testhost.quote fixtures.document "missing"
            (testhost.world fixtures.page)
            (served (testhost.world fixtures.page) fixtures.page
               (mkHostCall (VObject 1) "getElementById" [VString "missing"]))
            _
            (wasm.errorString ("cannot find elt with id " +:+ testhost.quote "missing")) _).
  vm_compute. reflexivity.
Defined.

(** ** The event listener *)

(** A call that fails one of the three validations is answered with [nil]
    after one line of trace, whatever the handler is. *)
Lemma listener_rejects (quote : string -> string) (evt : string)
    (handler : Value -> Value -> M any) (this : Value) (args : list Value) (w : World) :
  Value_Truthy this = false
  \/ length args <> 1%nat
  \/ (exists ev, args = [ev] /\ Value_Truthy ev = false) ->
  exists line, wasm.listener quote evt handler this args w = (Printf line;; mret nil) w.
Proof.
  unfold wasm.listener. intros [Ht | [Hn | (ev & -> & He)]].
  - rewrite Ht. cbn [negb]. eauto.
  - destruct (Value_Truthy this); cbn [negb]; [| by eauto].
    rewrite (proj2 (Nat.eqb_neq _ _) Hn). cbn [negb]. eauto.
  - destruct (Value_Truthy this); cbn [negb]; [| by eauto].
    cbn. rewrite He. cbn [negb]. eauto.
Qed.

(** A call that passes them runs the handler on the subject and the event,
    after one line of trace, provided the trace can be formatted. *)
Lemma listener_forwards (quote : string -> string) (evt : string)
    (handler : Value -> Value -> M any) (this ev : Value) (w : World)
    (s_this s_evt s_target : string) :
  Value_Truthy this = true ->
  Value_Truthy ev = true ->
  wasm.Dbg this w = Ok s_this w ->
  wasm.Dbg ev w = Ok s_evt w ->
  isObject (Value_Type ev) = true ->
  wasm.Dbg (prop (heap w) ev "target") w = Ok s_target w ->
  wasm.listener quote evt handler this [ev] w =
    (Printf ("Event " +:+ quote evt +:+ " called on " +:+ s_this +:+ " evt=" +:+ s_evt +:+
             " target=" +:+ s_target +:+ wasm.LF);;
     handler this ev) w.
Proof.
  intros Ht He H1 H2 Ho H3. unfold wasm.listener. rewrite Ht. cbn. rewrite He. cbn.
  unfold mbind at 1, M_bind at 1. rewrite H1.
  unfold mbind at 1, M_bind at 1. rewrite H2.
  unfold mbind at 1, M_bind at 1. rewrite Value_Get_ref by done.
  unfold mbind at 1, M_bind at 1. rewrite H3. reflexivity.
Qed.

(** A call that passes them with an event that is not an object panics when
    the trace asks the event for its [target]; the handler is not run. *)
Lemma listener_primitive_event_panics (quote : string -> string) (evt : string)
    (handler : Value -> Value -> M any) (this ev : Value) (w : World) (s_this : string) :
  Value_Truthy this = true ->
  Value_Truthy ev = true ->
  wasm.Dbg this w = Ok s_this w ->
  isObject (Value_Type ev) = false ->
  wasm.listener quote evt handler this [ev] w
  = Panic (ValueError "Value.Get" (Value_Type ev)) w.
Proof.
  intros Ht He H1 Ho. unfold wasm.listener. rewrite Ht. cbn. rewrite He. cbn.
  unfold mbind at 1, M_bind at 1. rewrite H1.
  unfold mbind at 1, M_bind at 1. rewrite wasm_Dbg_primitive by (by destruct ev).
  unfold mbind at 1, M_bind at 1. by rewrite Value_Get_primitive.
Qed.

(** C1 fails on the code.  With an object as the subject and the boolean
    [true] as the only argument, all three validations hold; the listener
    then formats its trace, asks the argument for its [target], and panics in
    [Value.Get], since a boolean has no properties.  The handler is not
    run. *)
Theorem listener_truthy_primitive_panics (quote : string -> string) (evt : string)
    (handler : Value -> Value -> M any) :
  Value_Truthy (VObject 2) = true
  /\ length [VBoolean true] = 1%nat
  /\ Value_Truthy (VBoolean true) = true
  /\ wasm.listener quote evt handler (VObject 2) [VBoolean true] (testhost.world fixtures.page)
     = Panic (ValueError "Value.Get" TypeBoolean) (testhost.world fixtures.page).
Proof. repeat split; vm_compute; reflexivity. Qed.

(** [NewEventListener] returns, having created one callable. *)
Lemma NewEventListener_ok (quote : string -> string) (evt : string)
    (handler : Value -> Value -> M any) (w : World) :
  let ref := fresh (dom (heap w)) in
  wasm.NewEventListener quote evt handler w =
    Ok {| wasm.name := evt;
          wasm.fn := {| Func_id := nextFuncID w; Func_Value := VFunction ref;
                        Func_go := wasm.listener quote evt handler |} |}
       {| heap := <[ref := mkObject ∅ []]> (heap w); stdout := stdout w;
          nextFuncID := S (nextFuncID w); hostCalls := hostCalls w |}.
Proof. reflexivity. Qed.

(** What [Add] and [Remove] do to the world: a line of trace, and at most
    the one registration call. *)
Lemma registration_final (host : Host) (e : wasm.EventListener) (elt : Value)
    (m : string) (line : string -> string) (w : World) :
  let o := (s ← wasm.Dbg elt;
            Printf (line s);;
            Value_Call host elt m [VString (wasm.name e); Func_Value (wasm.fn e)];;
            mret tt) w in
  nextFuncID (final o) = nextFuncID w
  /\ (hostCalls (final o) = hostCalls w
      \/ hostCalls (final o) = (hostCalls w ++ [registration e elt m])%list)
  /\ (panicked o = false ->
      hostCalls (final o) = (hostCalls w ++ [registration e elt m])%list).
Proof.
  unfold mbind, M_bind. pose proof (wasm_Dbg_final elt w) as Hd.
  destruct (wasm.Dbg elt w) as [s w0|p w0]; cbn in Hd; subst w0; [| cbn; naive_solver].
  cbn [Printf].
  match goal with
  | |- context [Value_Call host elt m ?args ?w1] =>
      destruct (Value_Call_final host elt m args w1) as (Hn & _ & Hh & Hp);
      destruct (Value_Call host elt m args w1) as [r w2|p w2]
  end; cbn in *; unfold registration; repeat split; auto.
Qed.

(** When the target accepts the method, [Add] and [Remove] come to what the
    host makes of the one call, after the line of trace. *)
Lemma registration_outcome (host : Host) (e : wasm.EventListener) (elt : Value)
    (m : string) (line : string -> string) (w : World) :
  accepts (heap w) elt m = true ->
  (s ← wasm.Dbg elt;
   Printf (line s);;
   Value_Call host elt m [VString (wasm.name e); Func_Value (wasm.fn e)];;
   mret tt) w
  = call_outcome host (logged w (line (describe (heap w) elt))) elt m
      [VString (wasm.name e); Func_Value (wasm.fn e)].
Proof.
  unfold accepts. intros Ha.
  apply andb_true_iff in Ha as [Ha Hf]. apply andb_true_iff in Ha as [Hd Ho].
  apply bool_decide_eq_true in Hf.
  unfold mbind, M_bind. rewrite wasm_Dbg_describable by done. cbn [Printf].
  unfold Value_Call, call_outcome, logged. rewrite Ho. cbn [negb heap].
  rewrite Value_Get_ref by done. cbn [heap]. rewrite decide_True by done.
  by destruct (host (heap w) elt m [VString (wasm.name e); Func_Value (wasm.fn e)])
    as [[r|err] h].
Qed.

(** When it does not, they panic before the host is asked. *)
Lemma registration_refused (host : Host) (e : wasm.EventListener) (elt : Value)
    (m : string) (line : string -> string) (w : World) :
  accepts (heap w) elt m = false ->
  let o := (s ← wasm.Dbg elt;
            Printf (line s);;
            Value_Call host elt m [VString (wasm.name e); Func_Value (wasm.fn e)];;
            mret tt) w in
  panicked o = true /\ heap (final o) = heap w /\ hostCalls (final o) = hostCalls w.
Proof.
  unfold accepts. intros Ha. cbv zeta. unfold mbind, M_bind.
  destruct (describable (heap w) elt) eqn:Hd.
  - rewrite wasm_Dbg_describable by done. cbn [Printf]. unfold Value_Call. cbn [heap].
    destruct (isObject (Value_Type elt)) eqn:Ho; [| done].
    cbn [andb negb] in Ha. apply bool_decide_eq_false in Ha.
    rewrite Value_Get_ref by done. cbn [heap]. by rewrite decide_False by done.
  - pose proof (proj1 (Dbg_panicked elt w)) as Hp. rewrite Hd in Hp.
    pose proof (wasm_Dbg_final elt w) as Hf.
    destruct (wasm.Dbg elt w) as [s w0|p w0]; [done |]. cbn in Hf. by subst w0.
Qed.

(** C7.  [NewEventListener] creates the callable once: it takes one
    identifier and has the host create one function object, which was not
    on the heap before and is on it afterwards, and stores both, with the
    event name, in the listener; nothing else changes.  A listener created
    next has another callable.  [Add] and [Remove] create nothing: the
    identifier counter is as before, and the only method they ever call is
    [addEventListener], respectively [removeEventListener], on the target,
    with the stored name and the stored callable.  When the target accepts
    the method, their outcome is what the host makes of exactly that call on
    the heap as it was; when it does not, they panic with the heap and the
    calls served as before. *)
Theorem listener_identity (host : Host) (quote : string -> string) :
  (forall (evt : string) (handler : Value -> Value -> M any) (w : World),
     exists e w',
       wasm.NewEventListener quote evt handler w = Ok e w'
       /\ wasm.name e = evt
       /\ Func_go (wasm.fn e) = wasm.listener quote evt handler
       /\ Func_id (wasm.fn e) = nextFuncID w
       /\ nextFuncID w' = S (nextFuncID w)
       /\ (exists ref, Func_Value (wasm.fn e) = VFunction ref
                       /\ heap w !! ref = None
                       /\ heap w' = <[ref := mkObject ∅ []]> (heap w))
       /\ hostCalls w' = hostCalls w
       /\ stdout w' = stdout w)
  /\ (forall (evt1 evt2 : string) (handler1 handler2 : Value -> Value -> M any)
             (w w1 w2 : World) (e1 e2 : wasm.EventListener),
        wasm.NewEventListener quote evt1 handler1 w = Ok e1 w1 ->
        wasm.NewEventListener quote evt2 handler2 w1 = Ok e2 w2 ->
        Func_Value (wasm.fn e1) <> Func_Value (wasm.fn e2))
  /\ (forall (e : wasm.EventListener) (elt : Value) (w : World),
        let o := wasm.Add host quote e elt w in
        nextFuncID (final o) = nextFuncID w
        /\ (hostCalls (final o) = hostCalls w
            \/ hostCalls (final o)
               = (hostCalls w ++ [registration e elt "addEventListener"])%list)
        /\ (panicked o = false ->
            hostCalls (final o)
            = (hostCalls w ++ [registration e elt "addEventListener"])%list)
        /\ (accepts (heap w) elt "addEventListener" = true ->
            o = call_outcome host
                  (logged w ("Adding event listener " +:+ quote (wasm.name e) +:+ " to "
                             +:+ describe (heap w) elt +:+ wasm.LF))
                  elt "addEventListener" [VString (wasm.name e); Func_Value (wasm.fn e)])
        /\ (accepts (heap w) elt "addEventListener" = false ->
            panicked o = true /\ heap (final o) = heap w
            /\ hostCalls (final o) = hostCalls w))
  /\ (forall (e : wasm.EventListener) (elt : Value) (w : World),
        let o := wasm.Remove host quote e elt w in
        nextFuncID (final o) = nextFuncID w
        /\ (hostCalls (final o) = hostCalls w
            \/ hostCalls (final o)
               = (hostCalls w ++ [registration e elt "removeEventListener"])%list)
        /\ (panicked o = false ->
            hostCalls (final o)
            = (hostCalls w ++ [registration e elt "removeEventListener"])%list)
        /\ (accepts (heap w) elt "removeEventListener" = true ->
            o = call_outcome host
                  (logged w ("Removing event listener " +:+ quote (wasm.name e) +:+ " from "
                             +:+ describe (heap w) elt +:+ wasm.LF))
                  elt "removeEventListener" [VString (wasm.name e); Func_Value (wasm.fn e)])
        /\ (accepts (heap w) elt "removeEventListener" = false ->
            panicked o = true /\ heap (final o) = heap w
            /\ hostCalls (final o) = hostCalls w)).
Proof.
  split; [| split; [| split]].
  - intros evt handler w. do 2 eexists.
    split; [apply NewEventListener_ok |]. cbn. repeat split.
    eexists. split; [reflexivity |]. split; [| reflexivity].
    apply not_elem_of_dom, is_fresh.
  - intros evt1 evt2 handler1 handler2 w w1 w2 e1 e2.
    rewrite !NewEventListener_ok. cbv zeta. intros [= <- <-] [= <- _]. cbn.
    intros [= Heq].
    pose proof (is_fresh (dom (<[fresh (dom (heap w)) := mkObject ∅ []]> (heap w)))) as Hf.
    rewrite <- Heq in Hf. apply Hf. rewrite dom_insert_L. set_solver.
  - intros e elt w. cbv zeta.
    pose proof (registration_final host e elt "addEventListener"
                  (fun s => "Adding event listener " +:+ quote (wasm.name e) +:+ " to " +:+ s
                            +:+ wasm.LF) w) as (Hn & Hh & Hp).
    split; [exact Hn | split; [exact Hh | split; [exact Hp | split]]].
    + exact (registration_outcome host e elt "addEventListener"
               (fun s => "Adding event listener " +:+ quote (wasm.name e) +:+ " to " +:+ s
                         +:+ wasm.LF) w).
    + exact (registration_refused host e elt "addEventListener"
               (fun s => "Adding event listener " +:+ quote (wasm.name e) +:+ " to " +:+ s
                         +:+ wasm.LF) w).
  - intros e elt w. cbv zeta.
    pose proof (registration_final host e elt "removeEventListener"
                  (fun s => "Removing event listener " +:+ quote (wasm.name e) +:+ " from "
                            +:+ s +:+ wasm.LF) w) as (Hn & Hh & Hp).
    split; [exact Hn | split; [exact Hh | split; [exact Hp | split]]].
    + exact (registration_outcome host e elt "removeEventListener"
               (fun s => "Removing event listener " +:+ quote (wasm.name e) +:+ " from "
                         +:+ s +:+ wasm.LF) w).
    + exact (registration_refused host e elt "removeEventListener"
               (fun s => "Removing event listener " +:+ quote (wasm.name e) +:+ " from "
                         +:+ s +:+ wasm.LF) w).
Qed.

Lemma listener_identity_witness :
  hostCalls fixtures.page_added
  = [registration fixtures.click (VObject 2) "addEventListener"]
  /\ hostCalls fixtures.page_removed
     = [registration fixtures.click (VObject 2) "addEventListener";
        registration fixtures.click (VObject 2) "removeEventListener"]
  /\ wasm.Add testhost.browser testhost.quote fixtures.click (VObject 2)
       (testhost.world fixtures.page)
     = call_outcome testhost.browser
         (logged (testhost.world fixtures.page)
            ("Adding event listener " +:+ testhost.quote "click" +:+ " to <obj id=main>"
             +:+ wasm.LF))
         (VObject 2) "addEventListener" [VString "click"; VFunction 20].
Proof.
  destruct (listener_identity testhost.browser testhost.quote) as (_ & _ & Hadd & Hrem).
  split; [| split].
  - exact (proj1 (proj2 (proj2 (Hadd fixtures.click (VObject 2)
                                  (testhost.world fixtures.page)))) eq_refl).
  - exact (proj1 (proj2 (proj2 (Hrem fixtures.click (VObject 2) fixtures.page_added)))
             eq_refl).
  - exact (proj1 (proj2 (proj2 (proj2 (Hadd fixtures.click (VObject 2)
                                         (testhost.world fixtures.page))))) eq_refl).
Defined.

(** The heap [Add] leaves holds the registration the host made. *)
Example Add_registers_on_host :
  events.listeners_of (heap fixtures.page_added) (VObject 2) = [("click", VFunction 20)]
  /\ events.listeners_of (heap fixtures.page_removed) (VObject 2) = [].
Proof. vm_compute. split; reflexivity. Qed.

(** ** Adding and removing *)

Lemma registration_ok (host : Host) (e : wasm.EventListener) (elt : Value)
    (m : string) (line : string -> string) (w w' : World) :
  (s ← wasm.Dbg elt;
   Printf (line s);;
   Value_Call host elt m [VString (wasm.name e); Func_Value (wasm.fn e)];;
   mret tt) w = Ok tt w' ->
  exists r, host (heap w) elt m [VString (wasm.name e); Func_Value (wasm.fn e)]
            = (Returned r, heap w').
Proof.
  unfold mbind, M_bind. pose proof (wasm_Dbg_final elt w) as Hd.
  destruct (wasm.Dbg elt w) as [s w0|p w0]; cbn in Hd; subst w0; [| done].
  cbn [Printf].
  match goal with
  | |- context [Value_Call host elt m ?args ?w1] =>
      destruct (Value_Call host elt m args w1) as [r w2|p w2] eqn:Ec
  end; [| done].
  intros [= <-]. apply Value_Call_ok in Ec as [Ec _]. eauto.
Qed.

(** A dispatch that fires none of the callables of the table runs no Go
    function and leaves the world as it is. *)
Lemma run_not_fired (f : Func) (callables : list Value) (this ev : Value) (w : World) :
  Func_Value f ∉ callables -> events.run [f] callables this ev w = Ok [] w.
Proof.
  induction callables as [|c rest IH]; intros Hnot; [reflexivity |].
  apply not_elem_of_cons in Hnot as [Hc Hrest]. cbn.
  rewrite decide_False by done. cbn. by apply IH.
Qed.

Section AddRemove.

Variable host : Host.
Variable quote : string -> string.

(** The host is one where [removeEventListener], called with the event name
    and the callable of an [addEventListener] before it, leaves that callable
    unregistered for the event. *)
Hypothesis remove_undoes_add :
  forall (h h1 h2 : Heap) (target : Value) (n : string) (f r1 r2 : Value),
    host h target "addEventListener" [VString n; f] = (Returned r1, h1) ->
    host h1 target "removeEventListener" [VString n; f] = (Returned r2, h2) ->
    f ∉ events.fired h2 target n.

(** C8.  On such a host, when [Add] and then [Remove] of one listener have
    returned on a target, the callable of the listener is not among those a
    dispatch of the event on the target fires, and such a dispatch runs no Go
    function of the listener: the wrapped handler is not invoked. *)
Theorem Add_Remove_silences (e : wasm.EventListener) (target ev : Value) (w w1 w2 : World) :
  wasm.Add host quote e target w = Ok tt w1 ->
  wasm.Remove host quote e target w1 = Ok tt w2 ->
  (Func_Value (wasm.fn e) ∉ events.fired (heap w2) target (wasm.name e))
  /\ events.dispatch [wasm.fn e] target (wasm.name e) ev w2 = Ok [] w2.
Proof.
  intros Hadd Hrem.
  apply (registration_ok host e target "addEventListener"
           (fun s => "Adding event listener " +:+ quote (wasm.name e) +:+ " to " +:+ s
                     +:+ wasm.LF)) in Hadd as [r1 Hadd].
  apply (registration_ok host e target "removeEventListener"
           (fun s => "Removing event listener " +:+ quote (wasm.name e) +:+ " from " +:+ s
                     +:+ wasm.LF)) in Hrem as [r2 Hrem].
  pose proof (remove_undoes_add _ _ _ _ _ _ _ _ Hadd Hrem) as Hnot.
  split; [exact Hnot |]. unfold events.dispatch. by apply run_not_fired.
Qed.

End AddRemove.

(** The host of the tests is such a host. *)
Lemma browser_remove_undoes_add (h h1 h2 : Heap) (target : Value) (n : string) (f r1 r2 : Value) :
  testhost.browser h target "addEventListener" [VString n; f] = (Returned r1, h1) ->
  testhost.browser h1 target "removeEventListener" [VString n; f] = (Returned r2, h2) ->
  f ∉ events.fired h2 target n.
Proof.
  intros _ Hrem. unfold events.fired, events.listeners_of.
  assert (Hgone : forall ref,
    h2 = testhost.update_listeners h1 ref (testhost.remove_listener n f) ->
    f ∉ (filter (fun x => x.1 = n)
           match h2 !! ref with Some o => listeners o | None => [] end).*2).
  { intros ref ->. unfold testhost.update_listeners. rewrite lookup_alter_eq.
    destruct (h1 !! ref) as [o|]; cbn; [| apply not_elem_of_nil].
    intros ([n' f'] & Hf & Hin)%list_elem_of_fmap. cbn in Hf. subst f'.
    apply list_elem_of_filter in Hin as [Hn Hin]. cbn in Hn. subst n'.
    unfold testhost.remove_listener in Hin.
    apply list_elem_of_filter in Hin as [Hne _]. done. }
  destruct target; cbn in Hrem; try apply not_elem_of_nil.
  all: apply Hgone; by inversion Hrem.
Qed.

Lemma Add_Remove_silences_witness :
  events.dispatch [wasm.fn fixtures.click] (VObject 2) "click" (VObject 3)
    fixtures.page_removed
  = Ok [] fixtures.page_removed.
Proof.
  refine (proj2 (Add_Remove_silences testhost.browser testhost.quote browser_remove_undoes_add
                   fixtures.click (VObject 2) (VObject 3)
                   (testhost.world fixtures.page) fixtures.page_added fixtures.page_removed
                   _ _)).
  - vm_compute. reflexivity.
  - vm_compute. reflexivity.
Defined.

(** Without the [Remove], the same dispatch runs the listener, which runs
    the handler. *)
Example dispatch_after_Add_runs_listener :
  match events.dispatch [wasm.fn fixtures.click] (VObject 2) "click" (VObject 3)
          fixtures.page_added with
  | Ok ids w => (ids, length (stdout w))
  | Panic _ _ => ([], 0%nat)
  end = ([1%nat], 2%nat).
Proof. vm_compute. reflexivity. Qed.

(** * Further properties *)

(** ** The document *)

(** X1.  With the global an object, [GetDoc] returns without a panic and
    leaves the world alone: a holder of the [document] attribute and no
    error when that attribute is truthy, no holder and the error
    [cannot get document] when it is falsy or absent.  A holder it returns
    wraps a truthy value. *)
Theorem GetDoc_outcome (Global : Value) (w : World) :
  isObject (Value_Type Global) = true ->
  wasm.GetDoc Global w =
    Ok (if Value_Truthy (prop (heap w) Global "document")
        then (Some (wasm.mkDocHolder (prop (heap w) Global "document")), None)
        else (None, Some (wasm.errorString "cannot get document"))) w
  /\ (forall g e w', wasm.GetDoc Global w = Ok (Some g, e) w' ->
        Value_Truthy (wasm.doc g) = true /\ e = None).
Proof.
  intros Hobj.
  assert (Heq : wasm.GetDoc Global w =
    Ok (if Value_Truthy (prop (heap w) Global "document")
        then (Some (wasm.mkDocHolder (prop (heap w) Global "document")), None)
        else (None, Some (wasm.errorString "cannot get document"))) w).
  { unfold wasm.GetDoc, mbind, M_bind. rewrite Value_Get_ref by done.
    by destruct (Value_Truthy _). }
  split; [exact Heq |]. intros g e w'. rewrite Heq.
  destruct (Value_Truthy (prop (heap w) Global "document")) eqn:Ht; [| done].
  by intros [= <- <- _].
Qed.

Lemma GetDoc_outcome_witness :
  wasm.GetDoc (VObject 5) (testhost.world fixtures.window)
  = Ok (Some (wasm.mkDocHolder (VObject 1)), None) (testhost.world fixtures.window)
  /\ wasm.GetDoc (VObject 5) (testhost.world fixtures.page)
     = Ok (None, Some (wasm.errorString "cannot get document")) (testhost.world fixtures.page).
Proof.
  split.
  - exact (proj1 (GetDoc_outcome (VObject 5) (testhost.world fixtures.window) eq_refl)).
  - exact (proj1 (GetDoc_outcome (VObject 5) (testhost.world fixtures.page) eq_refl)).
Defined.

(** X2.  A failure of the call itself is a panic, never an error value: when
    [getElementById] panics, [GetElementByID] panics with the same value in
    the same world.  So it is for a holder whose document is no object,
    which [GetDoc] lets through when the document is a truthy primitive:
    [GetElementByID] and [CreateElement] then panic in [Value.Call], before
    the host is asked. *)
Theorem DocHolder_call_failure (host : Host) (quote : string -> string)
    (g : wasm.DocHolder) (id : string) (w : World) :
  (forall p w', Value_Call host (wasm.doc g) "getElementById" [VString id] w = Panic p w' ->
     wasm.GetElementByID host quote g id w = Panic p w')
  /\ (isObject (Value_Type (wasm.doc g)) = false ->
      wasm.GetElementByID host quote g id w
      = Panic (ValueError "Value.Call" (Value_Type (wasm.doc g))) w
      /\ wasm.CreateElement host g id w
         = Panic (ValueError "Value.Call" (Value_Type (wasm.doc g))) w).
Proof.
  split.
  - intros p w' Hc. unfold wasm.GetElementByID, mbind, M_bind. by rewrite Hc.
  - intros Hobj. unfold wasm.GetElementByID, wasm.CreateElement, mbind, M_bind, Value_Call.
    by rewrite Hobj.
Qed.

Lemma DocHolder_call_failure_witness :
  wasm.GetDoc (VObject 5) (testhost.world fixtures.odd_window)
  = Ok (Some (wasm.mkDocHolder (VString "about:blank")), None)
       (testhost.world fixtures.odd_window)
  /\ wasm.GetElementByID testhost.browser testhost.quote
       (wasm.mkDocHolder (VString "about:blank")) "main" (testhost.world fixtures.odd_window)
     = Panic (ValueError "Value.Call" TypeString) (testhost.world fixtures.odd_window).
Proof.
  split; [vm_compute; reflexivity |].
  exact (proj1 (proj2 (DocHolder_call_failure testhost.browser testhost.quote
                         (wasm.mkDocHolder (VString "about:blank")) "main"
                         (testhost.world fixtures.odd_window)) eq_refl)).
Defined.

(** X3.  [GetElementByID] and [CreateElement] write nothing to standard
    output, wrap no Go function, and have the host serve at most one call,
    the lookup or the creation on the document. *)
Theorem DocHolder_effects (host : Host) (quote : string -> string)
    (g : wasm.DocHolder) (s : string) (w : World) :
  let lookup := wasm.GetElementByID host quote g s w in
  let create := wasm.CreateElement host g s w in
  stdout (final lookup) = stdout w
  /\ nextFuncID (final lookup) = nextFuncID w
  /\ (hostCalls (final lookup) = hostCalls w
      \/ hostCalls (final lookup)
         = (hostCalls w ++ [mkHostCall (wasm.doc g) "getElementById" [VString s]])%list)
  /\ stdout (final create) = stdout w
  /\ nextFuncID (final create) = nextFuncID w
  /\ (hostCalls (final create) = hostCalls w
      \/ hostCalls (final create)
         = (hostCalls w ++ [mkHostCall (wasm.doc g) "createElement" [VString s]])%list).
Proof.
  cbv zeta.
  destruct (Value_Call_final host (wasm.doc g) "getElementById" [VString s] w)
    as (Hn & Hs & Hh & _).
  destruct (Value_Call_final host (wasm.doc g) "createElement" [VString s] w)
    as (Hn' & Hs' & Hh' & _).
  assert (Hf : final (wasm.GetElementByID host quote g s w)
               = final (Value_Call host (wasm.doc g) "getElementById" [VString s] w)).
  { unfold wasm.GetElementByID, mbind, M_bind.
    destruct (Value_Call host (wasm.doc g) "getElementById" [VString s] w) as [elt w1|];
      [| done].
    by destruct (Value_Truthy elt). }
  rewrite Hf. unfold wasm.CreateElement. cbv zeta in *. repeat split; assumption.
Qed.

(** ** Reading and describing *)

Lemma GetClassList_final (obj : Value) (w : World) :
  final (wasm.GetClassList obj w) = w /\ final (part_000.GetClassList obj w) = w.
Proof.
  destruct (isObject (Value_Type obj)) eqn:Hobj; [| by destruct obj].
  destruct (classList_readable (heap w) obj) eqn:Hcl.
  - by rewrite wasm_GetClassList_readable, part_GetClassList_readable.
  - by destruct (GetClassList_unreadable obj w Hobj Hcl) as [-> ->].
Qed.

Lemma part_Dbg_final (v : Value) (w : World) : final (part_000.Dbg v w) = w.
Proof.
  destruct (decide (Value_Type v = TypeObject)) as [Ev|Ev].
  - destruct (classList_readable (heap w) v) eqn:Hcl.
    + by rewrite part_Dbg_describe.
    + by rewrite (proj2 (Dbg_unreadable v w Ev Hcl)).
  - by rewrite part_Dbg_primitive.
Qed.

(** X4.  The class-list accessors, [String] of a class list and [Dbg], in
    both files, only read: whether they return or panic, the heap, the
    output, the function counter and the calls served are as before. *)
Theorem readers_leave_world (v : Value) (c : part_000.ClassList) (w : World) :
  final (wasm.GetClassList v w) = w
  /\ final (wasm.Dbg v w) = w
  /\ final (part_000.GetClassList v w) = w
  /\ final (part_000.ClassList_String c w) = w
  /\ final (part_000.Dbg v w) = w.
Proof.
  destruct (GetClassList_final v w) as [Ha Hb].
  repeat split; [exact Ha | apply wasm_Dbg_final | exact Hb | | apply part_Dbg_final].
  unfold part_000.ClassList_String.
  destruct (decide (Value_Type (part_000.ClassList_Value c) = TypeUndefined)); [done |].
  unfold mbind, M_bind. by destruct (part_000.ClassList_Value c).
Qed.

(** X5.  [Dbg], in both files, panics exactly on an object whose [classList]
    attribute is neither undefined nor an object; on every other value it
    returns. *)
Theorem Dbg_panics_iff (v : Value) (w : World) :
  (panicked (wasm.Dbg v w) = true
   <-> Value_Type v = TypeObject /\ classList_readable (heap w) v = false)
  /\ (panicked (part_000.Dbg v w) = true
      <-> Value_Type v = TypeObject /\ classList_readable (heap w) v = false).
Proof.
  destruct (Dbg_panicked v w) as [-> ->].
  assert (H : negb (describable (heap w) v) = true
              <-> Value_Type v = TypeObject /\ classList_readable (heap w) v = false).
  { unfold describable. rewrite negb_true_iff, orb_false_iff, negb_false_iff.
    by rewrite bool_decide_eq_true. }
  by split.
Qed.

Lemma Dbg_panics_iff_witness :
  panicked (wasm.Dbg (VObject 1) (testhost.world fixtures.null_classList)) = true
  /\ panicked (part_000.Dbg (VObject 1) (testhost.world fixtures.null_classList)) = true.
Proof.
  destruct (Dbg_panics_iff (VObject 1) (testhost.world fixtures.null_classList)) as [Ha Hb].
  split; [apply Ha | apply Hb]; split; reflexivity.
Defined.

(** X6.  The second file's [Dbg] returns the value's own text for a value
    that is no object, and for an object with a readable class list the
    form [<obj[ id=..][ type=..][ cls=..]>], with the segments of
    [src/wasm.go] except for the [cls] segment, which is there exactly when
    the [length] of the class list is a number that [Value.Int] truncates to
    a positive integer and the text of the class list is not empty. *)
Theorem part_Dbg_format (v : Value) (w : World) :
  describable (heap w) v = true ->
  part_000.Dbg v w = Ok (describe_classes (heap w) v) w.
Proof.
  unfold describable. intros Hd.
  destruct (decide (Value_Type v = TypeObject)) as [Ev|Ev].
  - rewrite bool_decide_eq_true_2 in Hd by done.
    rewrite part_Dbg_describe by done. unfold describe_classes. by rewrite Ev.
  - rewrite part_Dbg_primitive by done. unfold describe_classes.
    by destruct (Value_Type v).
Qed.

Lemma part_Dbg_format_witness :
  part_000.Dbg (VObject 1) (testhost.world fixtures.two_classes)
  = Ok "<obj id=box cls=a b>" (testhost.world fixtures.two_classes)
  /\ part_000.Dbg (VObject 1) (testhost.world fixtures.blank_value)
     = Ok "<obj>" (testhost.world fixtures.blank_value).
Proof.
  split.
  - exact (part_Dbg_format (VObject 1) (testhost.world fixtures.two_classes) eq_refl).
  - exact (part_Dbg_format (VObject 1) (testhost.world fixtures.blank_value) eq_refl).
Defined.

(** ** The listener *)

(** X7.  The validations are tried in order and the first that fails
    decides the line of trace: a falsy subject is reported whatever the
    arguments are, a wrong number of arguments is reported with that number,
    and a falsy argument is reported last.  In each case the listener
    returns [nil]; the heap, the function counter and the calls served are
    as before, and the handler has no part in the outcome. *)
Theorem listener_validation_order (quote : string -> string) (evt : string)
    (handler : Value -> Value -> M any) (this : Value) (args : list Value) (w : World) :
  (Value_Truthy this = false ->
   wasm.listener quote evt handler this args w
   = Ok nil (logged w ("event " +:+ quote evt +:+ " this is not truthy" +:+ wasm.LF)))
  /\ (Value_Truthy this = true -> length args <> 1%nat ->
      wasm.listener quote evt handler this args w
      = Ok nil (logged w ("event " +:+ quote evt +:+ " len(args)=" +:+ pretty (length args)
                          +:+ wasm.LF)))
  /\ (forall ev, Value_Truthy this = true -> args = [ev] -> Value_Truthy ev = false ->
      wasm.listener quote evt handler this args w
      = Ok nil (logged w ("event " +:+ quote evt +:+ " arg[0] is not truthy" +:+ wasm.LF))).
Proof.
  unfold wasm.listener. split; [| split].
  - by intros ->.
  - intros -> Hn. cbn [negb]. by rewrite (proj2 (Nat.eqb_neq _ _) Hn).
  - intros ev -> -> He. cbn. by rewrite He.
Qed.

Lemma listener_validation_order_witness :
  wasm.listener testhost.quote "click" fixtures.echo VNull [] (testhost.world fixtures.page)
  = Ok nil (logged (testhost.world fixtures.page)
              ("event " +:+ testhost.quote "click" +:+ " this is not truthy" +:+ wasm.LF))
  /\ wasm.listener testhost.quote "click" fixtures.echo (VObject 2) []
       (testhost.world fixtures.page)
     = Ok nil (logged (testhost.world fixtures.page)
                 ("event " +:+ testhost.quote "click" +:+ " len(args)=0" +:+ wasm.LF))
  /\ wasm.listener testhost.quote "click" fixtures.echo (VObject 2) [VNull]
       (testhost.world fixtures.page)
     = Ok nil (logged (testhost.world fixtures.page)
                 ("event " +:+ testhost.quote "click" +:+ " arg[0] is not truthy" +:+ wasm.LF)).
Proof.
  split; [| split].
  - exact (proj1 (listener_validation_order testhost.quote "click" fixtures.echo VNull []
                    (testhost.world fixtures.page)) eq_refl).
  - refine (proj1 (proj2 (listener_validation_order testhost.quote "click" fixtures.echo
                            (VObject 2) [] (testhost.world fixtures.page))) eq_refl _).
    discriminate.
  - exact (proj2 (proj2 (listener_validation_order testhost.quote "click" fixtures.echo
                           (VObject 2) [VNull] (testhost.world fixtures.page)))
             VNull eq_refl eq_refl eq_refl).
Defined.

(** X8.  Called with a truthy subject and one event that is an object, both
    describable as is the event's [target], the listener writes one line of
    trace, naming the event and describing subject, event and target, and
    then runs the handler on the subject and the event: the outcome of the
    listener is the outcome of the handler, result or panic. *)
Theorem listener_invokes_handler (quote : string -> string) (evt : string)
    (handler : Value -> Value -> M any) (this ev : Value) (w : World) :
  Value_Truthy this = true ->
  isObject (Value_Type ev) = true ->
  describable (heap w) this = true ->
  describable (heap w) ev = true ->
  describable (heap w) (prop (heap w) ev "target") = true ->
  wasm.listener quote evt handler this [ev] w
  = handler this ev
      (logged w ("Event " +:+ quote evt +:+ " called on " +:+ describe (heap w) this
                 +:+ " evt=" +:+ describe (heap w) ev
                 +:+ " target=" +:+ describe (heap w) (prop (heap w) ev "target")
                 +:+ wasm.LF)).
Proof.
  intros Ht Ho H1 H2 H3.
  rewrite (listener_forwards quote evt handler this ev w _ _ _ Ht
             ltac:(by destruct ev)
             (wasm_Dbg_describable _ _ H1) (wasm_Dbg_describable _ _ H2) Ho
             (wasm_Dbg_describable _ _ H3)).
  reflexivity.
Qed.

Lemma listener_invokes_handler_witness :
  wasm.listener testhost.quote "click" fixtures.echo (VObject 2) [VObject 3]
    (testhost.world fixtures.page)
  = Ok (any_Value (VObject 3))
       (logged (testhost.world fixtures.page)
          ("Event " +:+ testhost.quote "click"
           +:+ " called on <obj id=main> evt=<obj type=click> target=<obj id=main>"
           +:+ wasm.LF)).
Proof.
  exact (listener_invokes_handler testhost.quote "click" fixtures.echo (VObject 2) (VObject 3)
           (testhost.world fixtures.page) eq_refl eq_refl eq_refl eq_refl eq_refl).
Defined.

(** ** Registration *)

Lemma registration_stdout (host : Host) (e : wasm.EventListener) (elt : Value)
    (m : string) (line : string -> string) (w : World) :
  describable (heap w) elt = true ->
  stdout (final ((s ← wasm.Dbg elt;
                  Printf (line s);;
                  Value_Call host elt m [VString (wasm.name e); Func_Value (wasm.fn e)];;
                  mret tt) w))
  = (stdout w ++ [line (describe (heap w) elt)])%list.
Proof.
  intros Hd. unfold mbind, M_bind. rewrite wasm_Dbg_describable by done. cbn [Printf].
  match goal with
  | |- context [Value_Call host elt m ?args ?w1] =>
      destruct (Value_Call_final host elt m args w1) as (_ & Hs & _);
      destruct (Value_Call host elt m args w1) as [r w2|p w2]
  end; exact Hs.
Qed.

(** X9.  [Add] and [Remove] write their line of trace before they call the
    host: for a describable target the line is on standard output whether
    the call then returns or panics.  For a target [Dbg] cannot describe,
    they panic with the world as it was, nothing written and nothing
    called. *)
Theorem registration_logs_first (host : Host) (quote : string -> string)
    (e : wasm.EventListener) (elt : Value) (w : World) :
  (describable (heap w) elt = true ->
   stdout (final (wasm.Add host quote e elt w))
   = (stdout w ++ ["Adding event listener " +:+ quote (wasm.name e) +:+ " to "
                   +:+ describe (heap w) elt +:+ wasm.LF])%list
   /\ stdout (final (wasm.Remove host quote e elt w))
      = (stdout w ++ ["Removing event listener " +:+ quote (wasm.name e) +:+ " from "
                      +:+ describe (heap w) elt +:+ wasm.LF])%list)
  /\ (describable (heap w) elt = false ->
      panicked (wasm.Add host quote e elt w) = true
      /\ final (wasm.Add host quote e elt w) = w
      /\ panicked (wasm.Remove host quote e elt w) = true
      /\ final (wasm.Remove host quote e elt w) = w).
Proof.
  split.
  - intros Hd. split.
    + exact (registration_stdout host e elt "addEventListener"
               (fun s => "Adding event listener " +:+ quote (wasm.name e) +:+ " to " +:+ s
                         +:+ wasm.LF) w Hd).
    + exact (registration_stdout host e elt "removeEventListener"
               (fun s => "Removing event listener " +:+ quote (wasm.name e) +:+ " from " +:+ s
                         +:+ wasm.LF) w Hd).
  - intros Hd. pose proof (proj1 (Dbg_panicked elt w)) as Hp.
    rewrite Hd in Hp. pose proof (wasm_Dbg_final elt w) as Hf.
    unfold wasm.Add, wasm.Remove, mbind, M_bind.
    destruct (wasm.Dbg elt w) as [s w0|p w0]; [done |]. cbn in Hf. by subst w0.
Qed.

Lemma registration_logs_first_witness :
  stdout (final (wasm.Add testhost.browser testhost.quote fixtures.click (VNumber (int_number 7))
                   (testhost.world fixtures.page)))
  = ["Adding event listener " +:+ testhost.quote "click" +:+ " to <number: 7>" +:+ wasm.LF]
  /\ panicked (wasm.Add testhost.browser testhost.quote fixtures.click (VNumber (int_number 7))
                 (testhost.world fixtures.page)) = true.
Proof.
  split; [| vm_compute; reflexivity].
  exact (proj1 (proj1 (registration_logs_first testhost.browser testhost.quote fixtures.click
                         (VNumber (int_number 7)) (testhost.world fixtures.page)) eq_refl)).
Defined.

(** X10.  On a target that is no object, [Add] and [Remove] panic in
    [Value.Call]: the trace line with the target's own text is written, the
    host is not called, and heap and function counter are as before. *)
Theorem registration_on_primitive (host : Host) (quote : string -> string)
    (e : wasm.EventListener) (elt : Value) (w : World) :
  isObject (Value_Type elt) = false ->
  wasm.Add host quote e elt w
  = Panic (ValueError "Value.Call" (Value_Type elt))
      (logged w ("Adding event listener " +:+ quote (wasm.name e) +:+ " to "
                 +:+ Value_String elt +:+ wasm.LF))
  /\ wasm.Remove host quote e elt w
     = Panic (ValueError "Value.Call" (Value_Type elt))
         (logged w ("Removing event listener " +:+ quote (wasm.name e) +:+ " from "
                    +:+ Value_String elt +:+ wasm.LF)).
Proof.
  intros Hobj. unfold wasm.Add, wasm.Remove, mbind, M_bind.
  rewrite wasm_Dbg_primitive by (by destruct elt).
  cbn [Printf]. unfold Value_Call. cbn [heap]. by rewrite Hobj.
Qed.

Lemma registration_on_primitive_witness :
  wasm.Remove testhost.browser testhost.quote fixtures.click VNull (testhost.world fixtures.page)
  = Panic (ValueError "Value.Call" TypeNull)
      (logged (testhost.world fixtures.page)
         ("Removing event listener " +:+ testhost.quote "click" +:+ " from <null>"
          +:+ wasm.LF)).
Proof.
  exact (proj2 (registration_on_primitive testhost.browser testhost.quote fixtures.click VNull
                  (testhost.world fixtures.page) eq_refl)).
Defined.

(** X11.  Two listeners created one after the other have different
    callables: different identifiers and different host functions, also for
    the same event name and the same handler.  Removing with the second
    therefore names another callable than adding with the first did. *)
Theorem NewEventListener_distinct (quote : string -> string) (evt1 evt2 : string)
    (h1 h2 : Value -> Value -> M any) (w w1 w2 : World) (e1 e2 : wasm.EventListener) :
  wasm.NewEventListener quote evt1 h1 w = Ok e1 w1 ->
  wasm.NewEventListener quote evt2 h2 w1 = Ok e2 w2 ->
  Func_id (wasm.fn e1) <> Func_id (wasm.fn e2)
  /\ Func_Value (wasm.fn e1) <> Func_Value (wasm.fn e2).
Proof.
  rewrite !NewEventListener_ok. cbv zeta. intros [= <- <-] [= <- _]. cbn. split; [lia |].
  intros [= Heq].
  pose proof (is_fresh (dom (<[fresh (dom (heap w)) := mkObject ∅ []]> (heap w)))) as Hf.
  rewrite <- Heq in Hf. apply Hf. rewrite dom_insert_L. set_solver.
Qed.

Lemma NewEventListener_distinct_witness :
  VFunction (fresh (dom fixtures.page))
  <> VFunction (fresh (dom (<[fresh (dom fixtures.page) := mkObject ∅ []]> fixtures.page))).
Proof.
  exact (proj2 (NewEventListener_distinct testhost.quote "click" "click"
                  fixtures.echo fixtures.echo (testhost.world fixtures.page) _ _ _ _
                  (NewEventListener_ok testhost.quote "click" fixtures.echo
                     (testhost.world fixtures.page))
                  (NewEventListener_ok testhost.quote "click" fixtures.echo _))).
Defined.

(** ** Class lists *)

(** X12.  What [GetClassList] of [src/wasm.go] returns is consistent: it
    leaves the world alone; a count other than zero comes with the object's
    own [classList] attribute, which is then an object, so that its [value]
    can be read; and the undefined value comes with the count zero. *)
Theorem wasm_GetClassList_result (obj c : Value) (n : Z) (w w' : World) :
  wasm.GetClassList obj w = Ok (c, n) w' ->
  w' = w
  /\ (n <> 0 -> c = prop (heap w) obj "classList" /\ isObject (Value_Type c) = true)
  /\ (c = VUndefined -> n = 0).
Proof.
  destruct (isObject (Value_Type obj)) eqn:Hobj; [| by destruct obj].
  rewrite wasm_GetClassList_unfold by done. cbv zeta.
  destruct (decide (prop (heap w) obj "classList" = VUndefined)) as [Hu|Hu].
  - by intros [= <- <- <-].
  - destruct (isObject (Value_Type (prop (heap w) obj "classList"))) eqn:Hc; [| done].
    destruct (prop (heap w) (prop (heap w) obj "classList") "length");
      intros [= <- <- <-]; done.
Qed.

Lemma wasm_GetClassList_result_witness :
  VObject 2 = prop fixtures.two_classes (VObject 1) "classList"
  /\ isObject (Value_Type (VObject 2)) = true.
Proof.
  refine (proj1 (proj2 (wasm_GetClassList_result (VObject 1) (VObject 2) 2
                          (testhost.world fixtures.two_classes)
                          (testhost.world fixtures.two_classes) _)) _).
  - vm_compute. reflexivity.
  - discriminate.
Defined.

(** X13.  A view [GetClassList] of the second file returns is undefined, or
    it is the object's own [classList] attribute, an object that reports a
    positive length.  [String] therefore never panics on such a view. *)
Theorem part_GetClassList_result (obj : Value) (c : part_000.ClassList) (w w' : World) :
  part_000.GetClassList obj w = Ok c w' ->
  w' = w
  /\ (part_000.ClassList_Value c = VUndefined
      \/ (part_000.ClassList_Value c = prop (heap w) obj "classList"
          /\ isObject (Value_Type (part_000.ClassList_Value c)) = true
          /\ 0 < class_count (heap w) obj))
  /\ panicked (part_000.ClassList_String c w) = false.
Proof.
  destruct (isObject (Value_Type obj)) eqn:Hobj; [| by destruct obj].
  rewrite part_GetClassList_unfold by done. cbv zeta.
  destruct (decide (prop (heap w) obj "classList" = VUndefined)) as [Hu|Hu].
  - intros [= <- <-]. repeat split; by auto.
  - destruct (isObject (Value_Type (prop (heap w) obj "classList"))) eqn:Hc; [| done].
    intros [= <- <-]. split; [done |].
    destruct (0 <? class_count (heap w) obj) eqn:Hn; cbn [part_000.ClassList_Value].
    + apply Z.ltb_lt in Hn. split; [by auto |].
      unfold part_000.ClassList_String. cbn [part_000.ClassList_Value].
      destruct (prop (heap w) obj "classList"); done.
    + split; [by auto | done].
Qed.

Lemma part_GetClassList_result_witness :
  panicked (part_000.ClassList_String (part_000.mkClassList (VObject 2))
              (testhost.world fixtures.two_classes)) = false.
Proof.
  refine (proj2 (proj2 (part_GetClassList_result (VObject 1) (part_000.mkClassList (VObject 2))
                          (testhost.world fixtures.two_classes)
                          (testhost.world fixtures.two_classes) _))).
  vm_compute. reflexivity.
Defined.

(** X14.  On a class list that is not undefined, [Contains] returns the
    boolean the host's [contains] answers; when the host answers with
    anything but a boolean, [Contains] panics in [Value.Bool], after the
    call. *)
Theorem Contains_outcome (host : Host) (c : part_000.ClassList) (s : string)
    (w w' : World) (r : Value) :
  Value_Type (part_000.ClassList_Value c) <> TypeUndefined ->
  Value_Call host (part_000.ClassList_Value c) "contains" [VString s] w = Ok r w' ->
  part_000.Contains host c s w =
    match r with
    | VBoolean b => Ok b w'
    | _ => Panic (ValueError "Value.Bool" (Value_Type r)) w'
    end.
Proof.
  intros Hu Hc. unfold part_000.Contains. rewrite decide_False by done.
  unfold mbind, M_bind. rewrite Hc. by destruct r.
Qed.

Lemma Contains_outcome_witness :
  part_000.Contains testhost.classes (part_000.mkClassList (VObject 2)) "a"
    (testhost.world fixtures.two_classes)
  = Ok true (served (testhost.world fixtures.two_classes) fixtures.two_classes
               (mkHostCall (VObject 2) "contains" [VString "a"]))
  /\ part_000.Contains testhost.browser (part_000.mkClassList (VObject 2)) "a"
       (testhost.world fixtures.two_classes)
     = Panic (ValueError "Value.Bool" TypeUndefined)
         (served (testhost.world fixtures.two_classes) fixtures.two_classes
            (mkHostCall (VObject 2) "contains" [VString "a"])).
Proof.
  split.
  - refine (Contains_outcome testhost.classes (part_000.mkClassList (VObject 2)) "a"
              (testhost.world fixtures.two_classes) _ (VBoolean true) _ _).
    + discriminate.
    + vm_compute. reflexivity.
  - refine (Contains_outcome testhost.browser (part_000.mkClassList (VObject 2)) "a"
              (testhost.world fixtures.two_classes) _ VUndefined _ _).
    + discriminate.
    + vm_compute. reflexivity.
Defined.

(** X15.  The view of an object whose class list is absent, or present and
    empty, is inert: [Add] and [Remove] through it return without a call to
    the host, so [Add] adds no class to an element that has none;
    [Contains] is false and [String] is empty. *)
Theorem empty_class_list_is_inert (host : Host) (obj : Value) (s : string) (w : World) :
  isObject (Value_Type obj) = true ->
  classList_readable (heap w) obj = true ->
  class_count (heap w) obj <= 0 ->
  (c ← part_000.GetClassList obj; part_000.Add host c s) w = Ok tt w
  /\ (c ← part_000.GetClassList obj; part_000.Remove host c s) w = Ok tt w
  /\ (c ← part_000.GetClassList obj; part_000.Contains host c s) w = Ok false w
  /\ (c ← part_000.GetClassList obj; part_000.ClassList_String c) w = Ok EmptyString w.
Proof.
  intros Hobj Hcl Hn. unfold mbind, M_bind.
  rewrite part_GetClassList_readable by done.
  rewrite (proj2 (Z.ltb_ge _ _) Hn). done.
Qed.

Lemma empty_class_list_is_inert_witness :
  (c ← part_000.GetClassList (VObject 1); part_000.Add testhost.classes c "shown")
    (testhost.world fixtures.empty_list)
  = Ok tt (testhost.world fixtures.empty_list).
Proof.
  refine (proj1 (empty_class_list_is_inert testhost.classes (VObject 1) "shown"
                   (testhost.world fixtures.empty_list) _ _ _)).
  - reflexivity.
  - reflexivity.
  - vm_compute. discriminate.
Defined.

(** X16.  The view of an object whose class list has a [length] that is a
    number [Value.Int] truncates to a positive integer is the live class
    list: [Add], [Remove] and [Contains] through it call
    [add], [remove] and [contains] on the object's own [classList]
    attribute, and [String] is the text of its [value]. *)
Theorem class_list_view_is_live (host : Host) (obj : Value) (s : string) (w : World) :
  isObject (Value_Type obj) = true ->
  0 < class_count (heap w) obj ->
  (c ← part_000.GetClassList obj; part_000.Add host c s) w
  = (Value_Call host (prop (heap w) obj "classList") "add" [VString s];; mret tt) w
  /\ (c ← part_000.GetClassList obj; part_000.Remove host c s) w
     = (Value_Call host (prop (heap w) obj "classList") "remove" [VString s];; mret tt) w
  /\ (c ← part_000.GetClassList obj; part_000.Contains host c s) w
     = (r ← Value_Call host (prop (heap w) obj "classList") "contains" [VString s];
        Value_Bool r) w
  /\ (c ← part_000.GetClassList obj; part_000.ClassList_String c) w
     = Ok (Value_String (class_value (heap w) obj)) w.
Proof.
  intros Hobj Hn. pose proof (class_count_ref _ _ Hn) as Hc.
  assert (Hcl : classList_readable (heap w) obj = true).
  { unfold classList_readable. rewrite Hc. apply orb_true_r. }
  assert (Hu : Value_Type (prop (heap w) obj "classList") <> TypeUndefined)
    by (by destruct (prop (heap w) obj "classList")).
  assert (Hg : part_000.GetClassList obj w
               = Ok (part_000.mkClassList (prop (heap w) obj "classList")) w).
  { rewrite part_GetClassList_readable by done. by rewrite (proj2 (Z.ltb_lt _ _) Hn). }
  repeat split; unfold mbind at 1, M_bind at 1; rewrite Hg;
    unfold part_000.Add, part_000.Remove, part_000.Contains, part_000.ClassList_String;
    cbn [part_000.ClassList_Value]; rewrite decide_False by done; [done | done | done |].
  unfold mbind, M_bind. by rewrite Value_Get_ref.
Qed.

Lemma class_list_view_is_live_witness :
  (c ← part_000.GetClassList (VObject 1); part_000.ClassList_String c)
    (testhost.world fixtures.two_classes)
  = Ok "a b" (testhost.world fixtures.two_classes).
Proof.
  refine (proj2 (proj2 (proj2 (class_list_view_is_live testhost.classes (VObject 1) "a"
                                 (testhost.world fixtures.two_classes) _ _)))).
  - reflexivity.
  - vm_compute. reflexivity.
Defined.
